(** * casdoorsdk/base.go: the request pipeline and the entity mutators

    A shallow embedding of [src/casdoorsdk/base.go].  Go strings and byte
    slices are [string]s (sequences of 8-bit [ascii] bytes), a
    [map[string]string] is a [gmap string string], and the package-level
    variables [client] and [authConfig] live in an explicit [World] that
    every operation threads through a small state monad.  The standard
    packages the file calls ([fmt], [strings], [unicode/utf8],
    [encoding/json], [net/http]) are modelled next to the code, each as far
    as this file uses it. *)

From Stdlib Require Import NArith ZArith Ascii String List Bool Lia DecimalString.
From stdpp Require Import base strings gmap list sorting.

Local Open Scope string_scope.
Local Open Scope N_scope.

(** ** unicode/utf8 *)

Module utf8.

Definition RuneError : N := 0xFFFD.
Definition RuneSelf : N := 0x80.
Definition MaxRune : N := 0x10FFFF.

Definition byte (c : ascii) : N := N_of_ascii c.
Definition chr (n : N) : ascii := ascii_of_N (n mod 256).

(** The [first] table: information about the first byte of an encoding. *)
Definition xx : N := 0xF1.
Definition as_ : N := 0xF0.
Definition first (b : N) : N :=
  if b <? 0x80 then as_
  else if b <? 0xC2 then xx
  else if b <? 0xE0 then 0x02
  else if b =? 0xE0 then 0x13
  else if b <? 0xED then 0x03
  else if b =? 0xED then 0x23
  else if b <? 0xF0 then 0x03
  else if b =? 0xF0 then 0x34
  else if b <? 0xF4 then 0x04
  else if b =? 0xF4 then 0x44
  else xx.

Definition locb : N := 0x80.
Definition hicb : N := 0xBF.

(** [acceptRanges]: the admissible range of the second byte. *)
Definition acceptRanges (i : N) : N * N :=
  if i =? 0 then (locb, hicb)
  else if i =? 1 then (0xA0, hicb)
  else if i =? 2 then (locb, 0x9F)
  else if i =? 3 then (0x90, hicb)
  else if i =? 4 then (locb, 0x8F)
  else (1, 0).

Definition cont (b : N) : bool := (locb <=? b) && (b <=? hicb).

(** [utf8.DecodeRuneInString]: the first rune of [s] and its width in
    bytes; [(RuneError, 1)] on an invalid encoding, [(RuneError, 0)] on
    the empty string. *)
Definition DecodeRuneInString (s : string) : N * nat :=
  match s with
  | EmptyString => (RuneError, 0%nat)
  | String c0 r0 =>
      let s0 := byte c0 in
      let x := first s0 in
      if as_ <=? x then ((if N.odd x then RuneError else s0), 1%nat)
      else
        let sz := N.land x 7 in
        let '(lo, hi) := acceptRanges (N.shiftr x 4) in
        match r0 with
        | EmptyString => (RuneError, 1%nat)
        | String c1 r1 =>
            let s1 := byte c1 in
            if N.of_nat (String.length s) <? sz then (RuneError, 1%nat)
            else if (s1 <? lo) || (hi <? s1) then (RuneError, 1%nat)
            else if sz <=? 2 then
              (N.lor (N.shiftl (N.land s0 0x1F) 6) (N.land s1 0x3F), 2%nat)
            else
              match r1 with
              | EmptyString => (RuneError, 1%nat)
              | String c2 r2 =>
                  let s2 := byte c2 in
                  if negb (cont s2) then (RuneError, 1%nat)
                  else if sz <=? 3 then
                    (N.lor (N.shiftl (N.land s0 0x0F) 12)
                       (N.lor (N.shiftl (N.land s1 0x3F) 6) (N.land s2 0x3F)),
                     3%nat)
                  else
                    match r2 with
                    | EmptyString => (RuneError, 1%nat)
                    | String c3 _ =>
                        let s3 := byte c3 in
                        if negb (cont s3) then (RuneError, 1%nat)
                        else
                          (N.lor (N.shiftl (N.land s0 0x07) 18)
                             (N.lor (N.shiftl (N.land s1 0x3F) 12)
                                (N.lor (N.shiftl (N.land s2 0x3F) 6)
                                   (N.land s3 0x3F))),
                           4%nat)
                    end
              end
        end
  end.

Definition enc3 (r : N) : string :=
  String (chr (N.lor 0xE0 (N.shiftr r 12)))
    (String (chr (N.lor 0x80 (N.land (N.shiftr r 6) 0x3F)))
       (String (chr (N.lor 0x80 (N.land r 0x3F))) EmptyString)).

(** [utf8.AppendRune] on an empty buffer: the UTF-8 encoding of [r], and
    that of [RuneError] for a surrogate or a value above [MaxRune]. *)
Definition EncodeRune (r : N) : string :=
  if r <? RuneSelf then String (chr r) EmptyString
  else if r <=? 0x7FF then
    String (chr (N.lor 0xC0 (N.shiftr r 6)))
      (String (chr (N.lor 0x80 (N.land r 0x3F))) EmptyString)
  else if (MaxRune <? r) || ((0xD800 <=? r) && (r <=? 0xDFFF)) then
    enc3 RuneError
  else if r <=? 0xFFFF then enc3 r
  else
    String (chr (N.lor 0xF0 (N.shiftr r 18)))
      (String (chr (N.lor 0x80 (N.land (N.shiftr r 12) 0x3F)))
         (String (chr (N.lor 0x80 (N.land (N.shiftr r 6) 0x3F)))
            (String (chr (N.lor 0x80 (N.land r 0x3F))) EmptyString))).

End utf8.

(** String helpers shared by the models below. *)

Fixpoint drop_str (n : nat) (s : string) : string :=
  match n, s with
  | O, _ => s
  | S n', String _ r => drop_str n' r
  | S _, EmptyString => EmptyString
  end.

Definition is_digit (c : ascii) : bool :=
  (48 <=? utf8.byte c) && (utf8.byte c <=? 57).

(** ** The [error] interface

    A Go [error] value is modelled by where it comes from; [Error] is its
    message.  The message of a foreign error (transport, URL parsing) is
    whatever text the raising package attached to it; that of a JSON
    error is a summary of Go's. *)

Inductive error : Type :=
| errorString (s : string)                (* [errors.New(s)] *)
| SyntaxError (msg : string)              (* [*json.SyntaxError] *)
| UnmarshalTypeError (Value : string)     (* [*json.UnmarshalTypeError] *)
| UnsupportedValueError (Str : string)    (* [*json.UnsupportedValueError] *)
| foreignError (msg : string).            (* raised by net/url, net/http, io *)

Definition Error (e : error) : string :=
  match e with
  | errorString s => s
  | SyntaxError msg => msg
  | UnmarshalTypeError v => "json: cannot unmarshal " +:+ v
  | UnsupportedValueError s => "json: unsupported value: " +:+ s
  | foreignError msg => msg
  end.

(** ** fmt

    [fmt.Errorf(format)] and [fmt.Sprintf] as [base.go] calls them.
    [Errorf] is always called with a format and NO operands, so [doPrintf]
    is the printf loop of package [fmt] specialised to [len(a) = 0]: no
    verb ever finds an operand, and no argument index is ever in range. *)

Module fmt.

Definition percentBangString := "%!".
Definition missingString := "(MISSING)".
Definition badIndexString := "(BADINDEX)".
Definition noVerbString := "%!(NOVERB)".
Definition badWidthString := "%!(BADWIDTH)".
Definition badPrecString := "%!(BADPREC)".

Definition tooLarge (x : N) : bool := 1000000 <? x.

(** [parsenum(s, start, end)] on the substring [s[start:end]]: the
    number read, whether one was read, and the unread remainder
    [s[newi:end]].  On overflow [newi = end]: the remainder is empty. *)
Fixpoint parsenum_from (s : string) (num : N) (isnum : bool)
  : N * bool * string :=
  match s with
  | String c r =>
      if is_digit c then
        if tooLarge num then (0, false, EmptyString)
        else parsenum_from r (num * 10 + (utf8.byte c - 48)) true
      else (num, isnum, s)
  | EmptyString => (num, isnum, s)
  end.

Definition parsenum (s : string) : N * bool * string :=
  parsenum_from s 0 false.

(** Position of the first closing bracket at index [>= 1]. *)
Fixpoint find_close (s : string) (i : nat) : option nat :=
  match s with
  | EmptyString => None
  | String c r => if Ascii.eqb c "]" then Some i else find_close r (S i)
  end.

(** [parseArgNumber(format)], [format] starting with an opening bracket:
    the width of the bracketed text to skip and whether it holds a
    number.  (The index itself is dropped: with no operand none is in
    range.) *)
Definition parseArgNumber (format : string) : nat * bool :=
  if (String.length format <? 3)%nat then (1%nat, false)
  else
    match find_close (drop_str 1 format) 1 with
    | Some i =>
        let '(_, ok, rest) := parsenum (substring 1 (i - 1) format) in
        if negb ok || negb (String.eqb rest EmptyString)
        then (S i, false) else (S i, true)
    | None => (1%nat, false)
    end.

(** [p.argNumber(argNum, format, i, 0)]: the remainder of the format,
    [found], and the new value of [p.goodArgNum]. *)
Definition argNumber (s : string) (good : bool) : string * bool * bool :=
  match s with
  | String "[" _ =>
      let '(wid, ok) := parseArgNumber s in (drop_str wid s, ok, false)
  | _ => (s, false, good)
  end.

Fixpoint skip_flags (s : string) : string :=
  match s with
  | String c r =>
      if Ascii.eqb c "#" || Ascii.eqb c "0" || Ascii.eqb c "+"
         || Ascii.eqb c "-" || Ascii.eqb c " "
      then skip_flags r else s
  | EmptyString => s
  end.

(** One verb: [s] is the format after the percent sign.  Returns what is
    written to the buffer and the unread remainder of the format. *)
Definition verb (s : string) : string * string :=
  let r1 := skip_flags s in
  let '(r2, afterIndex, good) := argNumber r1 true in
  let '(out1, r3, afterIndex, good) :=
    match r2 with
    | String "*" r' => (badWidthString, r', false, good)
    | _ =>
        let '(_, widPresent, r') := parsenum r2 in
        (EmptyString, r', afterIndex,
         good && negb (afterIndex && widPresent))
    end in
  let '(out2, r4, afterIndex, good) :=
    match r3 with
    | String "." r' =>
        let good := good && negb afterIndex in
        let '(r'', afterIndex, good) := argNumber r' good in
        match r'' with
        | String "*" r''' => (badPrecString, r''', false, good)
        | _ =>
            let '(_, _, r''') := parsenum r'' in
            (EmptyString, r''', afterIndex, good)
        end
    | _ => (EmptyString, r3, afterIndex, good)
    end in
  let '(r5, _, good) :=
    if afterIndex then (r4, afterIndex, good) else argNumber r4 good in
  match r5 with
  | EmptyString => (out1 +:+ out2 +:+ noVerbString, EmptyString)
  | String c _ =>
      let '(v, size) :=
        if utf8.RuneSelf <=? utf8.byte c
        then utf8.DecodeRuneInString r5 else (utf8.byte c, 1%nat) in
      let out :=
        if v =? utf8.byte "%" then "%"
        else if negb good
             then percentBangString +:+ utf8.EncodeRune v +:+ badIndexString
             else percentBangString +:+ utf8.EncodeRune v +:+ missingString in
      (out1 +:+ out2 +:+ out, drop_str size r5)
  end.

(** [p.doPrintf(format, nil)].  [skip] counts the bytes of [format] that
    the verb just processed has already consumed. *)
Fixpoint doPrintf (format : string) (skip : nat) : string :=
  match format with
  | EmptyString => EmptyString
  | String c r =>
      match skip with
      | S k => doPrintf r k
      | O =>
          if Ascii.eqb c "%" then
            let '(out, rest) := verb r in
            out +:+ doPrintf r (String.length r - String.length rest)
          else String c (doPrintf r 0)
      end
  end.

(** [fmt.Errorf(format)] with no operands. *)
Definition Errorf (format : string) : error := errorString (doPrintf format 0).

(** [fmt.Sprintf("%s/%s", a, b)] for two string operands. *)
Definition Sprintf_s_slash_s (a b : string) : string := a +:+ "/" +:+ b.

End fmt.

(** ** strings *)

Module strings.

(** [strings.Join(elems, sep)]. *)
Fixpoint Join (elems : list string) (sep : string) : string :=
  match elems with
  | [] => EmptyString
  | [x] => x
  | x :: rest => x +:+ sep +:+ Join rest sep
  end.

End strings.

(** ** strconv, as encoding/json uses it

    [encoding/json] stores every JSON number it decodes into an
    [interface{}] as a [float64] obtained from [strconv.ParseFloat], and
    prints a [float64] with [strconv.AppendFloat].  Binary floating point
    is kept behind this interface: [ParseFloat] fails on a literal out of
    range, [FormatFloat] fails on NaN and the infinities. *)

Class Float64 (float64 : Type) : Type := {
  ParseFloat : string -> option float64;
  FormatFloat : float64 -> option string
}.

(** ** encoding/json *)

Module json.

(** Bytes with a meaning in the JSON grammar. *)
Definition quote : ascii := ascii_of_N 34.
Definition backslash : ascii := ascii_of_N 92.
Definition isSpace (c : ascii) : bool :=
  let b := utf8.byte c in (b =? 32) || (b =? 9) || (b =? 13) || (b =? 10).

(** *** Syntax: the scanner

    The document as the scanner sees it.  Numbers are kept as their
    literal, object members in document order with their duplicates;
    strings are already unquoted. *)
#[local] Unset Elimination Schemes.
Inductive node : Type :=
| JNull
| JTrue
| JFalse
| JNumber (lit : string)
| JString (s : string)
| JArray (elems : list node)
| JObject (members : list (string * node)).
#[local] Set Elimination Schemes.

Definition hexval (c : ascii) : option N :=
  let b := utf8.byte c in
  if (48 <=? b) && (b <=? 57) then Some (b - 48)
  else if (97 <=? b) && (b <=? 102) then Some (b - 97 + 10)
  else if (65 <=? b) && (b <=? 70) then Some (b - 65 + 10)
  else None.

(** [getu4(s)]: the value of a leading backslash-u escape, if [s] starts
    with one. *)
Definition getu4 (s : string) : option N :=
  match s with
  | String b (String u (String h1 (String h2 (String h3 (String h4 _))))) =>
      if Ascii.eqb b backslash && Ascii.eqb u "u" then
        match hexval h1, hexval h2, hexval h3, hexval h4 with
        | Some a, Some b, Some c, Some d =>
            Some (((a * 16 + b) * 16 + c) * 16 + d)
        | _, _, _, _ => None
        end
      else None
  | _ => None
  end.

(** The scanner inside a string literal ([stateInString] and the escape
    states): [s] follows the opening quote; returns the raw text up to
    the closing quote and what follows it. *)
Fixpoint scan_string (s : string) : option (string * string) :=
  match s with
  | EmptyString => None
  | String c r =>
      if Ascii.eqb c quote then Some (EmptyString, r)
      else if Ascii.eqb c backslash then
        match r with
        | String e r' =>
            if Ascii.eqb e "u" then
              match r' with
              | String h1 (String h2 (String h3 (String h4 r''))) =>
                  match hexval h1, hexval h2, hexval h3, hexval h4 with
                  | Some _, Some _, Some _, Some _ =>
                      match scan_string r'' with
                      | Some (raw, rest) =>
                          Some (String c (String e (String h1 (String h2
                                 (String h3 (String h4 raw))))), rest)
                      | None => None
                      end
                  | _, _, _, _ => None
                  end
              | _ => None
              end
            else if Ascii.eqb e "b" || Ascii.eqb e "f" || Ascii.eqb e "n"
                    || Ascii.eqb e "r" || Ascii.eqb e "t"
                    || Ascii.eqb e backslash || Ascii.eqb e "/"
                    || Ascii.eqb e quote then
              match scan_string r' with
              | Some (raw, rest) => Some (String c (String e raw), rest)
              | None => None
              end
            else None
        | EmptyString => None
        end
      else if utf8.byte c <? 32 then None
      else
        match scan_string r with
        | Some (raw, rest) => Some (String c raw, rest)
        | None => None
        end
  end.

Definition unescape (e : ascii) : option ascii :=
  if Ascii.eqb e quote || Ascii.eqb e backslash || Ascii.eqb e "/"
     || Ascii.eqb e "'" then Some e
  else if Ascii.eqb e "b" then Some (ascii_of_N 8)
  else if Ascii.eqb e "f" then Some (ascii_of_N 12)
  else if Ascii.eqb e "n" then Some (ascii_of_N 10)
  else if Ascii.eqb e "r" then Some (ascii_of_N 13)
  else if Ascii.eqb e "t" then Some (ascii_of_N 9)
  else None.

Definition utf16_IsSurrogate (r : N) : bool := (0xD800 <=? r) && (r <? 0xE000).

Definition utf16_DecodeRune (r1 : N) (r2 : option N) : N :=
  match r2 with
  | Some r2 =>
      if (0xD800 <=? r1) && (r1 <? 0xDC00) && (0xDC00 <=? r2) && (r2 <? 0xE000)
      then N.lor (N.shiftl (r1 - 0xD800) 10) (r2 - 0xDC00) + 0x10000
      else utf8.RuneError
  | None => utf8.RuneError
  end.

(** [unquoteBytes] on the text between the quotes: escapes resolved,
    ill-formed UTF-8 coerced to U+FFFD.  [skip] counts the bytes already
    consumed by the escape or rune being decoded; [None] is the [ok =
    false] result, which a literal accepted by the scanner never gives. *)
Fixpoint unquote (s : string) (skip : nat) : option string :=
  match s with
  | EmptyString => Some EmptyString
  | String c r =>
      match skip with
      | S k => unquote r k
      | O =>
          if Ascii.eqb c backslash then
            match r with
            | EmptyString => None
            | String e _ =>
                if Ascii.eqb e "u" then
                  match getu4 s with
                  | None => None
                  | Some rr =>
                      let rr1 := getu4 (drop_str 6 s) in
                      let dec := utf16_DecodeRune rr rr1 in
                      if utf16_IsSurrogate rr then
                        if negb (dec =? utf8.RuneError) then
                          option_map (String.append (utf8.EncodeRune dec))
                            (unquote r 11)
                        else
                          option_map
                            (String.append (utf8.EncodeRune utf8.RuneError))
                            (unquote r 5)
                      else
                        option_map (String.append (utf8.EncodeRune rr))
                          (unquote r 5)
                  end
                else
                  match unescape e with
                  | Some b => option_map (String b) (unquote r 1)
                  | None => None
                  end
            end
          else if Ascii.eqb c quote || (utf8.byte c <? 32) then None
          else if utf8.byte c <? utf8.RuneSelf then
            option_map (String c) (unquote r 0)
          else
            let '(rr, size) := utf8.DecodeRuneInString s in
            option_map (String.append (utf8.EncodeRune rr))
              (unquote r (size - 1))
      end
  end.

(** The scanner inside a number ([stateNeg] ... [stateE0]): the literal
    and what follows it. *)
Fixpoint scan_digits (s : string) : string * string :=
  match s with
  | String c r =>
      if is_digit c then let '(d, rest) := scan_digits r in (String c d, rest)
      else (EmptyString, s)
  | EmptyString => (EmptyString, s)
  end.

Definition scan_exp (s : string) : option (string * string) :=
  match s with
  | String e r =>
      if Ascii.eqb e "e" || Ascii.eqb e "E" then
        let '(sign, r') :=
          match r with
          | String g r' =>
              if Ascii.eqb g "+" || Ascii.eqb g "-"
              then (String g EmptyString, r') else (EmptyString, r)
          | EmptyString => (EmptyString, r)
          end in
        match scan_digits r' with
        | (EmptyString, _) => None
        | (d, rest) => Some (String e (sign +:+ d), rest)
        end
      else Some (EmptyString, s)
  | EmptyString => Some (EmptyString, s)
  end.

Definition scan_frac (s : string) : option (string * string) :=
  match s with
  | String p r =>
      if Ascii.eqb p "." then
        match scan_digits r with
        | (EmptyString, _) => None
        | (d, rest) => Some (String p d, rest)
        end
      else Some (EmptyString, s)
  | EmptyString => Some (EmptyString, s)
  end.

Definition scan_int (s : string) : option (string * string) :=
  match s with
  | String c r =>
      if Ascii.eqb c "0" then Some (String c EmptyString, r)
      else if is_digit c then Some (scan_digits s)
      else None
  | EmptyString => None
  end.

Definition scan_number (s : string) : option (string * string) :=
  let '(sign, s1) :=
    match s with
    | String c r =>
        if Ascii.eqb c "-" then (String c EmptyString, r) else (EmptyString, s)
    | EmptyString => (EmptyString, s)
    end in
  match scan_int s1 with
  | None => None
  | Some (i, s2) =>
      match scan_frac s2 with
      | None => None
      | Some (f, s3) =>
          match scan_exp s3 with
          | None => None
          | Some (e, s4) => Some (sign +:+ i +:+ f +:+ e, s4)
          end
      end
  end.

(** The parse stack: the containers that are open, innermost first, with
    what they hold so far (in reverse) and, for an object, the key that
    awaits its value. *)
Inductive frame : Type :=
| FArray (rev_elems : list node)
| FObject (rev_members : list (string * node)) (key : option string).

(** The scanner's step states between tokens. *)
Inductive state : Type :=
| stateBeginValue (stack : list frame)
| stateBeginValueOrEmpty (stack : list frame)
| stateBeginStringOrEmpty (stack : list frame)
| stateBeginString (stack : list frame)
| stateColon (stack : list frame)
| stateEndValue (stack : list frame)
| stateEndTop (v : node).

Definition maxNestingDepth : N := 10000.

(** A value is complete: hand it to the innermost open container. *)
Definition end_value (v : node) (stack : list frame) : option state :=
  match stack with
  | [] => Some (stateEndTop v)
  | FArray rev :: st => Some (stateEndValue (FArray (v :: rev) :: st))
  | FObject rev (Some k) :: st =>
      Some (stateEndValue (FObject ((k, v) :: rev) None :: st))
  | FObject _ None :: _ => None
  end.

Definition pushParseState (f : frame) (stack : list frame) : option (list frame) :=
  if N.of_nat (length (f :: stack)) <=? maxNestingDepth then Some (f :: stack) else None.

Definition consumed (r rest : string) : nat := String.length r - String.length rest.

(** A value starts at byte [c], followed by [r]: the new state and the
    number of bytes of [r] the token takes. *)
Definition begin_value (c : ascii) (r : string) (stack : list frame)
  : option (state * nat) :=
  if Ascii.eqb c "{" then
    st ← pushParseState (FObject [] None) stack;
    Some (stateBeginStringOrEmpty st, 0%nat)
  else if Ascii.eqb c "[" then
    st ← pushParseState (FArray []) stack;
    Some (stateBeginValueOrEmpty st, 0%nat)
  else if Ascii.eqb c quote then
    '(raw, rest) ← scan_string r;
    s ← unquote raw 0;
    st ← end_value (JString s) stack;
    Some (st, consumed r rest)
  else if Ascii.eqb c "-" || is_digit c then
    '(lit, rest) ← scan_number (String c r);
    st ← end_value (JNumber lit) stack;
    Some (st, consumed r rest)
  else if Ascii.eqb c "t" then
    if String.prefix "rue" r
    then st ← end_value JTrue stack; Some (st, 3%nat) else None
  else if Ascii.eqb c "f" then
    if String.prefix "alse" r
    then st ← end_value JFalse stack; Some (st, 4%nat) else None
  else if Ascii.eqb c "n" then
    if String.prefix "ull" r
    then st ← end_value JNull stack; Some (st, 3%nat) else None
  else None.

Definition begin_string (c : ascii) (r : string) (stack : list frame)
  : option (state * nat) :=
  if Ascii.eqb c quote then
    '(raw, rest) ← scan_string r;
    k ← unquote raw 0;
    match stack with
    | FObject rev None :: st =>
        Some (stateColon (FObject rev (Some k) :: st), consumed r rest)
    | _ => None
    end
  else None.

Definition close_array (stack : list frame) : option (state * nat) :=
  match stack with
  | FArray rev :: st => st' ← end_value (JArray (reverse rev)) st; Some (st', 0%nat)
  | _ => None
  end.

Definition close_object (stack : list frame) : option (state * nat) :=
  match stack with
  | FObject rev None :: st =>
      st' ← end_value (JObject (reverse rev)) st; Some (st', 0%nat)
  | _ => None
  end.

(** One scanner step at byte [c] (followed by [r]); [None] is a syntax
    error. *)
Definition step (c : ascii) (r : string) (st : state) : option (state * nat) :=
  if isSpace c then
    match st with
    | stateColon _ | stateBeginValue _ | stateBeginValueOrEmpty _
    | stateBeginStringOrEmpty _ | stateBeginString _ | stateEndValue _
    | stateEndTop _ => Some (st, 0%nat)
    end
  else
    match st with
    | stateBeginValue stack => begin_value c r stack
    | stateBeginValueOrEmpty stack =>
        if Ascii.eqb c "]" then close_array stack else begin_value c r stack
    | stateBeginStringOrEmpty stack =>
        if Ascii.eqb c "}" then close_object stack else begin_string c r stack
    | stateBeginString stack => begin_string c r stack
    | stateColon stack =>
        if Ascii.eqb c ":" then Some (stateBeginValue stack, 0%nat) else None
    | stateEndValue stack =>
        match stack with
        | FArray _ :: _ =>
            if Ascii.eqb c "," then Some (stateBeginValue stack, 0%nat)
            else if Ascii.eqb c "]" then close_array stack
            else None
        | FObject _ _ :: _ =>
            if Ascii.eqb c "," then Some (stateBeginString stack, 0%nat)
            else if Ascii.eqb c "}" then close_object stack
            else None
        | [] => None
        end
    | stateEndTop _ => None
    end.

Fixpoint run (s : string) (skip : nat) (st : state) : option state :=
  match s with
  | EmptyString => Some st
  | String c r =>
      match skip with
      | S k => run r k st
      | O =>
          match step c r st with
          | Some (st', n) => run r n st'
          | None => None
          end
      end
  end.

(** [checkValid] and the walk over the document in one: the syntax tree
    of [data], or a [*SyntaxError] (whose text here is a summary: the
    offending byte and the offset are not modelled). *)
Definition parse (data : string) : node + error :=
  match run data 0 (stateBeginValue []) with
  | Some (stateEndTop v) => inl v
  | Some _ => inr (SyntaxError "unexpected end of JSON input")
  | None => inr (SyntaxError "invalid JSON input")
  end.

(** *** Go values

    What [Unmarshal] stores into an [interface{}]: [nil], [bool],
    [float64], [string], [[]interface{}] and [map[string]interface{}]. *)
Section values.
Context {float64 : Type} `{F64 : !Float64 float64}.

#[local] Unset Elimination Schemes.
Inductive value : Type :=
| VNil
| VBool (b : bool)
| VFloat64 (f : float64)
| VString (s : string)
| VSlice (elems : list value)
| VMap (m : gmap string value).
#[local] Set Elimination Schemes.

(** [d.saveError]: the first error is the one kept. *)
Definition saveError (saved new : option error) : option error :=
  match saved with Some _ => saved | None => new end.

(** [d.valueInterface]: the value of a document decoded into an empty
    interface, with the error saved on the way (a number out of
    range, which decodes to [nil]). *)
Fixpoint valueInterface (j : node) : value * option error :=
  match j with
  | JNull => (VNil, None)
  | JTrue => (VBool true, None)
  | JFalse => (VBool false, None)
  | JNumber lit =>
      match ParseFloat lit with
      | Some f => (VFloat64 f, None)
      | None => (VNil, Some (UnmarshalTypeError ("number " +:+ lit)))
      end
  | JString s => (VString s, None)
  | JArray elems =>
      let '(vs, e) :=
        (fix arrayInterface (l : list node) : list value * option error :=
           match l with
           | [] => ([], None)
           | x :: r =>
               let '(v, e1) := valueInterface x in
               let '(vs, e2) := arrayInterface r in
               (v :: vs, saveError e1 e2)
           end) elems in
      (VSlice vs, e)
  | JObject members =>
      let '(m, e) :=
        (fix objectInterface (l : list (string * node))
             (m : gmap string value) (e : option error)
           : gmap string value * option error :=
           match l with
           | [] => (m, e)
           | (k, x) :: r =>
               let '(v, e1) := valueInterface x in
               objectInterface r (<[k := v]> m) (saveError e e1)
           end) members ∅ None in
      (VMap m, e)
  end.

(** The [Value] field of the [UnmarshalTypeError] for a document of the
    wrong kind. *)
Definition kind_of (j : node) : string :=
  match j with
  | JNull => "null"
  | JTrue | JFalse => "bool"
  | JNumber _ => "number"
  | JString _ => "string"
  | JArray _ => "array"
  | JObject _ => "object"
  end.

(** A document stored into a field of static type [interface{}]
    holding [old]. *)
Definition store_interface (old : value) (j : node) : value * option error :=
  match j with
  | JNumber lit =>
      match ParseFloat lit with
      | Some f => (VFloat64 f, None)
      | None => (old, Some (UnmarshalTypeError ("number " +:+ lit)))
      end
  | _ => valueInterface j
  end.

(** A document stored into a [string] holding [old]: a JSON string is
    stored, [null] leaves the target alone, anything else is a type
    error. *)
Definition store_string (old : string) (j : node) : string * option error :=
  match j with
  | JString s => (s, None)
  | JNull => (old, None)
  | _ => (old, Some (UnmarshalTypeError (kind_of j)))
  end.

(** *** The response envelope ([type Response struct] of base.go) *)
Record Response : Type := mkResponse {
  Status : string;
  Msg : string;
  Data : value;
  Data2 : value
}.

Definition zero_Response : Response :=
  {| Status := EmptyString; Msg := EmptyString; Data := VNil; Data2 := VNil |}.

(** [unicode.SimpleFold] iterated down to the least rune of the fold
    orbit.  Besides the ASCII letters only U+017F (long s) and U+212A
    (Kelvin sign) fold to an ASCII letter; every other rune is kept
    here, which leaves it outside ASCII as its real fold is. *)
Definition foldRune (r : N) : N :=
  if (97 <=? r) && (r <=? 122) then r - 32
  else if r =? 0x17F then 83
  else if r =? 0x212A then 75
  else r.

(** [foldName]: the key under which a field name is looked up when no
    field matches exactly. *)
Fixpoint foldName (name : string) (skip : nat) : string :=
  match name with
  | EmptyString => EmptyString
  | String c r =>
      match skip with
      | S k => foldName r k
      | O =>
          if utf8.byte c <? utf8.RuneSelf
          then String (utf8.chr (foldRune (utf8.byte c))) (foldName r 0)
          else
            let '(rr, n) := utf8.DecodeRuneInString name in
            utf8.EncodeRune (foldRune rr) +:+ foldName r (n - 1)
      end
  end.

(** The fields of [Response] by their [json:] tags. *)
Inductive field : Type := fStatus | fMsg | fData | fData2.

Definition tag (f : field) : string :=
  match f with
  | fStatus => "status" | fMsg => "msg" | fData => "data" | fData2 => "data2"
  end.

Definition lookup_field (key : string) : option field :=
  List.find
    (fun f => String.eqb (tag f) key
              || String.eqb (foldName (tag f) 0) (foldName key 0))
    [fStatus; fMsg; fData; fData2].

Definition store_field (r : Response) (f : field) (j : node)
  : Response * option error :=
  match f with
  | fStatus =>
      let '(s, e) := store_string (Status r) j in
      ({| Status := s; Msg := Msg r; Data := Data r; Data2 := Data2 r |}, e)
  | fMsg =>
      let '(s, e) := store_string (Msg r) j in
      ({| Status := Status r; Msg := s; Data := Data r; Data2 := Data2 r |}, e)
  | fData =>
      let '(v, e) := store_interface (Data r) j in
      ({| Status := Status r; Msg := Msg r; Data := v; Data2 := Data2 r |}, e)
  | fData2 =>
      let '(v, e) := store_interface (Data2 r) j in
      ({| Status := Status r; Msg := Msg r; Data := Data r; Data2 := v |}, e)
  end.

(** [d.object] into a [Response]: members in document order, unknown
    keys skipped, the first error saved while decoding goes on. *)
Fixpoint object_Response (members : list (string * node))
    (r : Response) (e : option error) : Response * option error :=
  match members with
  | [] => (r, e)
  | (k, x) :: rest =>
      match lookup_field k with
      | Some f =>
          let '(r', e1) := store_field r f x in
          object_Response rest r' (saveError e e1)
      | None => object_Response rest r e
      end
  end.

(** [json.Unmarshal(data, &response)] for [var response Response]. *)
Definition Unmarshal_Response (data : string) : Response * option error :=
  match parse data with
  | inr e => (zero_Response, Some e)
  | inl (JObject members) => object_Response members zero_Response None
  | inl JNull => (zero_Response, None)
  | inl j => (zero_Response, Some (UnmarshalTypeError (kind_of j)))
  end.

(** [d.object] into a [map[string]string]. *)
Fixpoint object_params (members : list (string * node))
    (m : gmap string string) (e : option error)
  : gmap string string * option error :=
  match members with
  | [] => (m, e)
  | (k, x) :: rest =>
      let '(s, e1) := store_string EmptyString x in
      object_params rest (<[k := s]> m) (saveError e e1)
  end.

(** [json.Unmarshal(postBytes, &params)] for
    [var params map[string]string] (a nil map is the empty map). *)
Definition Unmarshal_params (data : string) : gmap string string * option error :=
  match parse data with
  | inr e => (∅, Some e)
  | inl (JObject members) => object_params members ∅ None
  | inl JNull => (∅, None)
  | inl j => (∅, Some (UnmarshalTypeError (kind_of j)))
  end.

(** *** The encoder *)

Definition hex (n : N) : ascii :=
  match String.get (N.to_nat n) "0123456789abcdef" with
  | Some c => c
  | None => "0"%char
  end.

(** [htmlSafeSet]: the ASCII bytes written as they are. *)
Definition htmlSafeSet (b : N) : bool :=
  (32 <=? b) && (b <? 128)
  && negb ((b =? 34) || (b =? 92) || (b =? 60) || (b =? 62) || (b =? 38)).

Definition escape_byte (c : ascii) : string :=
  let b := utf8.byte c in
  if (b =? 92) || (b =? 34) then String backslash (String c EmptyString)
  else if b =? 8 then String backslash "b"
  else if b =? 12 then String backslash "f"
  else if b =? 10 then String backslash "n"
  else if b =? 13 then String backslash "r"
  else if b =? 9 then String backslash "t"
  else String backslash
         ("u00" +:+ String (hex (N.shiftr b 4))
                      (String (hex (N.land b 15)) EmptyString)).

(** [appendString(dst, src, escapeHTML = true)] without the quotes. *)
Fixpoint appendString (src : string) (skip : nat) : string :=
  match src with
  | EmptyString => EmptyString
  | String c r =>
      match skip with
      | S k => appendString r k
      | O =>
          let b := utf8.byte c in
          if b <? utf8.RuneSelf then
            (if htmlSafeSet b then String c EmptyString else escape_byte c)
            +:+ appendString r 0
          else
            let '(rr, size) := utf8.DecodeRuneInString src in
            if (rr =? utf8.RuneError) && (size =? 1)%nat then
              String backslash "ufffd" +:+ appendString r 0
            else if (rr =? 0x2028) || (rr =? 0x2029) then
              String backslash
                ("u202" +:+ String (hex (N.land rr 15)) EmptyString)
              +:+ appendString r (size - 1)
            else substring 0 size src +:+ appendString r (size - 1)
      end
  end.

Definition quoted (s : string) : string :=
  String quote (appendString s 0) +:+ String quote EmptyString.

(** Map keys are written in byte-wise sorted order. *)
Definition key_le {A : Type} (a b : string * A) : Prop :=
  String.leb a.1 b.1 = true.

#[global] Instance key_le_dec {A : Type} (a b : string * A) :
  Decision (key_le a b).
Proof. unfold key_le. apply _. Defined.

Definition member (kv : string * string) : string := quoted kv.1 +:+ ":" +:+ kv.2.

(** The encoder on a value held in an [interface{}]; [None] is the
    [*UnsupportedValueError] of a float that JSON cannot express. *)
Fixpoint encode (v : value) : option string :=
  match v with
  | VNil => Some "null"
  | VBool true => Some "true"
  | VBool false => Some "false"
  | VFloat64 f => FormatFloat f
  | VString s => Some (quoted s)
  | VSlice elems =>
      ss ← mapM id (map encode elems);
      Some ("[" +:+ String.concat "," ss +:+ "]")
  | VMap m =>
      let kvs := merge_sort key_le (map_to_list (encode <$> m)) in
      ss ← mapM (fun kv : string * option string =>
                   s ← kv.2; Some (member (kv.1, s))) kvs;
      Some ("{" +:+ String.concat "," ss +:+ "}")
  end.

(** [json.Marshal(v)] for [v] an [interface{}]. *)
Definition Marshal_value (v : value) : string * option error :=
  match encode v with
  | Some s => (s, None)
  | None => (EmptyString, Some (UnsupportedValueError "float64"))
  end.

End values.

Arguments value : clear implicits.
Arguments Response : clear implicits.

End json.

(** A [Float64] instance for running the model on documents whose numbers
    are integer literals of magnitude at most 2^53, where [float64] is
    exact and prints as the integer itself.  Every other literal (and
    negative zero) is outside this instance and reported as out of range:
    on such documents the instance says nothing about Go. *)

Fixpoint digits_value (s : string) (acc : Z) : option Z :=
  match s with
  | EmptyString => Some acc
  | String c r =>
      if is_digit c
      then digits_value r (acc * 10 + Z.of_N (utf8.byte c - 48))%Z
      else None
  end.

Definition int_ParseFloat (lit : string) : option Z :=
  match lit with
  | EmptyString => None
  | String c r =>
      if Ascii.eqb c "-" then
        match digits_value r 0 with
        | Some n => if ((0 <? n) && (n <=? 2 ^ 53))%Z then Some (- n)%Z else None
        | None => None
        end
      else
        match digits_value lit 0 with
        | Some n => if (n <=? 2 ^ 53)%Z then Some n else None
        | None => None
        end
  end.

Definition int_FormatFloat (n : Z) : option string :=
  Some (DecimalString.NilZero.string_of_int (Z.to_int n)).

Definition IntFloat64 : Float64 Z :=
  {| ParseFloat := int_ParseFloat; FormatFloat := int_FormatFloat |}.

Export json (VNil, VBool, VFloat64, VString, VSlice, VMap,
             mkResponse, Status, Msg, Data, Data2, zero_Response).

(** The three entry points of [encoding/json] that base.go uses on types
    declared in base.go itself.  The pipeline below is written against
    this interface; [GoJson] is the model above. *)
Class Json (float64 : Type) : Type := {
  Unmarshal_Response : string -> json.Response float64 * option error;
  Unmarshal_params : string -> gmap string string * option error;
  Marshal_value : json.value float64 -> string * option error
}.

Definition GoJson {float64 : Type} `{F64 : !Float64 float64} : Json float64 :=
  {| Unmarshal_Response := json.Unmarshal_Response;
     Unmarshal_params := json.Unmarshal_params;
     Marshal_value := json.Marshal_value |}.

(** ** net/http, as far as base.go drives it *)

Module http.

(** An [io.Reader] handed to [http.NewRequest] as the request body,
    by what it will yield. *)
Inductive Reader : Type :=
| BytesReader (b : string)                      (* [bytes.NewReader(b)] *)
| MultipartForm (parts : list (string * string))  (* field name, content *)
| UrlencodedForm (fields : gmap string string).

Record Request : Type := mkRequest {
  Method : string;
  URL : string;
  BasicAuth : option (string * string);   (* set by [req.SetBasicAuth] *)
  Header : gmap string string;
  Body : option Reader
}.

(** A [*http.Response], reduced to what [ioutil.ReadAll(resp.Body)]
    returns for it. *)
Record Response : Type := mkResponse { ReadAll : string * option error }.

Definition SetBasicAuth (req : Request) (username password : string) : Request :=
  {| Method := Method req; URL := URL req;
     BasicAuth := Some (username, password);
     Header := Header req; Body := Body req |}.

Definition Header_Set (req : Request) (key val : string) : Request :=
  {| Method := Method req; URL := URL req; BasicAuth := BasicAuth req;
     Header := <[key := val]> (Header req); Body := Body req |}.

End http.

(** The interface [HttpClient] with its one method [Do], from a request
    to a response and an error: a client of state [C] answers a request
    with a response or an error (exactly one of the two, as [http.Client]
    does) and moves to a new state. *)
Class HttpClient (C : Type) : Type :=
  Do : C -> http.Request -> C * (http.Response + error).

(** ** Declarations of the package that live outside base.go *)

(** Modelled from the spec: the process-wide configuration [authConfig]
    (its struct is declared outside base.go): endpoint base URL, client
    id, client secret, organization name, application name, certificate. *)
Record AuthConfig : Type := mkAuthConfig {
  Endpoint : string;
  ClientId : string;
  ClientSecret : string;
  OrganizationName : string;
  ApplicationName : string;
  Certificate : string
}.

(** The entity structs are declared outside base.go, which touches their
    [Owner] and [Name] only; [More] stands for all their other fields. *)
Record User {More : Type} : Type := mkUser {
  User_Owner : string; User_Name : string; User_More : More
}.
Record Permission {More : Type} : Type := mkPermission {
  Permission_Owner : string; Permission_Name : string; Permission_More : More
}.
Record Role {More : Type} : Type := mkRole {
  Role_Owner : string; Role_Name : string; Role_More : More
}.
Arguments User : clear implicits.
Arguments Permission : clear implicits.
Arguments Role : clear implicits.

(** What base.go takes from the rest of the package and from the
    libraries' treatment of the package's own types: the URL builder
    [GetUrl] (it reads [authConfig]), the method [User.GetId], the JSON
    encodings of the three entity structs, and [net/url]'s verdict on a
    URL ([http.NewRequest] fails exactly when the URL does not parse). *)
Class Package : Type := {
  UserMore : Type;
  PermissionMore : Type;
  RoleMore : Type;
  GetUrl : AuthConfig -> string -> gmap string string -> string;
  GetId : User UserMore -> string;
  Marshal_User : User UserMore -> string * option error;
  Marshal_Permission : Permission PermissionMore -> string * option error;
  Marshal_Role : Role RoleMore -> string * option error;
  url_Parse : string -> option error
}.

(** Modelled from the spec: [createFormFile], declared outside base.go.
    The spec has it encode the given bytes as a multipart form with a
    single field per map entry ([multipart/form-data (single field file)]
    for the one entry DoPost passes). *)
Definition createFormFile (formData : gmap string string)
  : string * http.Reader * option error :=
  ("multipart/form-data", http.MultipartForm (map_to_list formData), None).

(** Modelled from the spec: [createForm], declared outside base.go.  The
    spec has it encode a flat string-keyed map as
    [application/x-www-form-urlencoded]. *)
Definition createForm (formData : gmap string string)
  : string * http.Reader * option error :=
  ("application/x-www-form-urlencoded", http.UrlencodedForm formData, None).

(** [http.NewRequest(method, url, body)]. *)
Definition NewRequest `{Package} (method url : string) (body : option http.Reader)
  : http.Request + error :=
  match url_Parse url with
  | Some err => inr err
  | None =>
      inl {| http.Method := method; http.URL := url; http.BasicAuth := None;
             http.Header := ∅; http.Body := body |}
  end.

(** [resp.Data == "Affected"]: an interface value equals a string constant
    when it holds a string, and that string. *)
Definition interface_eq_string {float64 : Type} (v : json.value float64)
    (s : string) : bool :=
  match v with
  | VString s' => String.eqb s' s
  | _ => false
  end.

(** ** The package state and its monad

    The package-level variables of base.go ([client]) and of the package
    ([authConfig]), and, as a ghost field, the requests handed to
    [client.Do] so far, oldest first. *)

Record World {C : Type} : Type := mkWorld {
  client : C;
  authConfig : AuthConfig;
  sent : list http.Request
}.
Arguments World : clear implicits.

Definition M (C A : Type) : Type := World C -> A * World C.

#[export] Instance M_ret {C} : MRet (M C) := fun A a w => (a, w).
#[export] Instance M_bind {C} : MBind (M C) :=
  fun A B f m w => let '(a, w') := m w in f a w'.

Definition gets {C A} (f : World C -> A) : M C A := fun w => (f w, w).

(** [SetHttpClient] sets custom http Client. *)
Definition SetHttpClient {C} (httpClient : C) : M C unit :=
  fun w => (tt, {| client := httpClient; authConfig := authConfig w; sent := sent w |}).

(** [client.Do(req)] on the package's client; the request is logged. *)
Definition client_Do {C} `{HttpClient C} (req : http.Request)
  : M C (http.Response + error) :=
  fun w =>
    let '(c', r) := Do (client w) req in
    (r, {| client := c'; authConfig := authConfig w; sent := sent w ++ [req] |}).

(** ** base.go *)

Section base.
Context {float64 : Type} `{J : !Json float64} `{P : Package}.
Context {C : Type} `{HC : !HttpClient C}.
#[local] Abbreviation Response := (json.Response float64).

(** A nil byte slice. *)
Definition nil_bytes : string := EmptyString.

(** [DoGetBytesRaw] is a general function to get response from param url
    through HTTP Get method. *)
Definition DoGetBytesRaw (url : string) : M C (string * option error) :=
  match NewRequest "GET" url None with
  | inr err => mret (nil_bytes, Some err)
  | inl req =>
      cfg ← gets authConfig;
      let req := http.SetBasicAuth req (ClientId cfg) (ClientSecret cfg) in
      r ← client_Do req;
      match r with
      | inr err => mret (nil_bytes, Some err)
      | inl resp =>
          let '(respBytes, err) := http.ReadAll resp in
          match err with
          | Some err => mret (nil_bytes, Some err)
          | None => mret (respBytes, None)
          end
      end
  end.

(** [DoGetResponse] is a general function to get response from param url
    through HTTP Get method. *)
Definition DoGetResponse (url : string) : M C (option Response * option error) :=
  '(respBytes, err) ← DoGetBytesRaw url;
  match err with
  | Some err => mret (None, Some err)
  | None =>
      let '(response, err) := Unmarshal_Response respBytes in
      match err with
      | Some err => mret (None, Some err)
      | None =>
          if negb (String.eqb (Status response) "ok")
          then mret (None, Some (fmt.Errorf (Msg response)))
          else mret (Some response, None)
      end
  end.

(** [DoGetBytes] is a general function to get response data in bytes
    from param url through HTTP Get method. *)
Definition DoGetBytes (url : string) : M C (string * option error) :=
  '(response, err) ← DoGetResponse url;
  match err, response with
  | Some err, _ => mret (nil_bytes, Some err)
  | None, Some response =>
      let '(res, err) := Marshal_value (Data response) in
      match err with
      | Some err => mret (nil_bytes, Some err)
      | None => mret (res, None)
      end
  | None, None =>
      (* [response.Data] on a nil pointer: unreachable, see
         [DoGetResponse_nil_error] *)
      mret (nil_bytes, None)
  end.

(** [DoPostBytesRaw] is a general function to post a request from url,
    body through HTTP Post method. *)
Definition DoPostBytesRaw (url contentType : string) (body : http.Reader)
  : M C (string * option error) :=
  let contentType :=
    if String.eqb contentType EmptyString
    then "text/plain;charset=UTF-8" else contentType in
  match NewRequest "POST" url (Some body) with
  | inr err => mret (nil_bytes, Some err)
  | inl req =>
      cfg ← gets authConfig;
      let req := http.SetBasicAuth req (ClientId cfg) (ClientSecret cfg) in
      let req := http.Header_Set req "Content-Type" contentType in
      r ← client_Do req;
      match r with
      | inr err => mret (nil_bytes, Some err)
      | inl resp =>
          let '(respByte, err) := http.ReadAll resp in
          match err with
          | Some err => mret (nil_bytes, Some err)
          | None => mret (respByte, None)
          end
      end
  end.

(** The tail of [DoPost], from [DoPostBytesRaw] on. *)
Definition DoPost_send (url contentType : string) (body : http.Reader)
  : M C (option Response * option error) :=
  '(respBytes, err) ← DoPostBytesRaw url contentType body;
  match err with
  | Some err => mret (None, Some err)
  | None =>
      let '(response, err) := Unmarshal_Response respBytes in
      match err with
      | Some err => mret (None, Some err)
      | None =>
          if negb (String.eqb (Status response) "ok")
          then mret (None, Some (fmt.Errorf (Msg response)))
          else mret (Some response, None)
      end
  end.

Definition DoPost (action : string) (queryMap : gmap string string)
    (postBytes : string) (isForm isFile : bool)
  : M C (option Response * option error) :=
  cfg ← gets authConfig;
  let url := GetUrl cfg action queryMap in
  if isForm then
    if isFile then
      let '(contentType, body, err) := createFormFile {[ "file" := postBytes ]} in
      match err with
      | Some err => mret (None, Some err)
      | None => DoPost_send url contentType body
      end
    else
      let '(params, err) := Unmarshal_params postBytes in
      match err with
      | Some err => mret (None, Some err)
      | None =>
          let '(contentType, body, err) := createForm params in
          match err with
          | Some err => mret (None, Some err)
          | None => DoPost_send url contentType body
          end
      end
  else
    DoPost_send url "text/plain;charset=UTF-8" (http.BytesReader postBytes).

(** The mutators take a pointer to the entity and write through it: each
    returns, before its Go results, the entity as the caller finds it
    after the call.  (The pointer is taken to be non-nil.  The case of a
    nil envelope with a nil error, where Go would dereference nil, is
    never reached: see [DoPost_nil_error].) *)

Definition modifyUserById (action id : string) (user : User UserMore)
    (columns : list string)
  : M C (User UserMore * (option Response * bool * option error)) :=
  let queryMap : gmap string string := {[ "id" := id ]} in
  let queryMap :=
    if negb (length columns =? 0)%nat
    then <["columns" := strings.Join columns ","]> queryMap else queryMap in
  cfg ← gets authConfig;
  let user := {| User_Owner := OrganizationName cfg;
                 User_Name := User_Name user; User_More := User_More user |} in
  let '(postBytes, err) := Marshal_User user in
  match err with
  | Some err => mret (user, (None, false, Some err))
  | None =>
      '(resp, err) ← DoPost action queryMap postBytes false false;
      match err, resp with
      | Some err, _ => mret (user, (None, false, Some err))
      | None, Some r =>
          mret (user, (Some r, interface_eq_string (Data r) "Affected", None))
      | None, None => mret (user, (None, false, None))
      end
  end.

(** [modifyUser] is an encapsulation of user CUD(Create, Update, Delete)
    operations. possible actions are [add-user], [update-user],
    [delete-user]. *)
Definition modifyUser (action : string) (user : User UserMore)
    (columns : list string)
  : M C (User UserMore * (option Response * bool * option error)) :=
  modifyUserById action (GetId user) user columns.

(** [modifyPermission] is an encapsulation of permission CUD(Create,
    Update, Delete) operations. possible actions are [add-permission],
    [update-permission], [delete-permission]. *)
Definition modifyPermission (action : string)
    (permission : Permission PermissionMore) (columns : list string)
  : M C (Permission PermissionMore * (option Response * bool * option error)) :=
  let queryMap : gmap string string :=
    {[ "id" := fmt.Sprintf_s_slash_s (Permission_Owner permission)
                 (Permission_Name permission) ]} in
  let queryMap :=
    if negb (length columns =? 0)%nat
    then <["columns" := strings.Join columns ","]> queryMap else queryMap in
  cfg ← gets authConfig;
  let permission :=
    {| Permission_Owner := OrganizationName cfg;
       Permission_Name := Permission_Name permission;
       Permission_More := Permission_More permission |} in
  let '(postBytes, err) := Marshal_Permission permission in
  match err with
  | Some err => mret (permission, (None, false, Some err))
  | None =>
      '(resp, err) ← DoPost action queryMap postBytes false false;
      match err, resp with
      | Some err, _ => mret (permission, (None, false, Some err))
      | None, Some r =>
          mret (permission,
                (Some r, interface_eq_string (Data r) "Affected", None))
      | None, None => mret (permission, (None, false, None))
      end
  end.

(** [modifyRole] is an encapsulation of role CUD(Create, Update, Delete)
    operations. possible actions are [add-role], [update-role],
    [delete-role]. *)
Definition modifyRole (action : string) (role : Role RoleMore)
    (columns : list string)
  : M C (Role RoleMore * (option Response * bool * option error)) :=
  let queryMap : gmap string string :=
    {[ "id" := fmt.Sprintf_s_slash_s (Role_Owner role) (Role_Name role) ]} in
  let queryMap :=
    if negb (length columns =? 0)%nat
    then <["columns" := strings.Join columns ","]> queryMap else queryMap in
  cfg ← gets authConfig;
  let role := {| Role_Owner := OrganizationName cfg;
                 Role_Name := Role_Name role; Role_More := Role_More role |} in
  let '(postBytes, err) := Marshal_Role role in
  match err with
  | Some err => mret (role, (None, false, Some err))
  | None =>
      '(resp, err) ← DoPost action queryMap postBytes false false;
      match err, resp with
      | Some err, _ => mret (role, (None, false, Some err))
      | None, Some r =>
          mret (role, (Some r, interface_eq_string (Data r) "Affected", None))
      | None, None => mret (role, (None, false, None))
      end
  end.

End base.

(** The requests a computation hands to [client.Do] when run from [w]. *)
Definition sent_by {C A} (m : M C A) (w : World C) : list http.Request :=
  drop (length (sent w)) (sent (m w).2).

(** The query map every mutator builds: [id], and [columns] when any are
    given. *)
Definition mutate_query (id : string) (columns : list string) : gmap string string :=
  match columns with
  | [] => {[ "id" := id ]}
  | _ => <["columns" := strings.Join columns ","]> {[ "id" := id ]}
  end.

(** The request [DoPostBytesRaw] prepares. *)
Definition post_request (cfg : AuthConfig) (url contentType : string)
    (body : http.Reader) : http.Request :=
  {| http.Method := "POST"; http.URL := url;
     http.BasicAuth := Some (ClientId cfg, ClientSecret cfg);
     http.Header := {[ "Content-Type" := contentType ]};
     http.Body := Some body |}.

(** The request [DoGetBytesRaw] prepares. *)
Definition get_request (cfg : AuthConfig) (url : string) : http.Request :=
  {| http.Method := "GET"; http.URL := url;
     http.BasicAuth := Some (ClientId cfg, ClientSecret cfg);
     http.Header := ∅; http.Body := None |}.

(** How the read of a response body ends, as the raw helpers return it. *)
Definition read_result (r : http.Response + error) : string * option error :=
  match r with
  | inr err => (EmptyString, Some err)
  | inl resp =>
      match http.ReadAll resp with
      | (_, Some err) => (EmptyString, Some err)
      | (b, None) => (b, None)
      end
  end.

(** What the pipeline makes of the raw bytes of a response. *)
Definition envelope_result {float64 : Type} `{Json float64}
    (raw : string * option error)
  : option (json.Response float64) * option error :=
  match raw with
  | (_, Some err) => (None, Some err)
  | (respBytes, None) =>
      match Unmarshal_Response respBytes with
      | (_, Some err) => (None, Some err)
      | (response, None) =>
          if String.eqb (Status response) "ok" then (Some response, None)
          else (None, Some (fmt.Errorf (Msg response)))
      end
  end.

(** ** Test doubles

    A scripted client, as a Go test would inject with [SetHttpClient]: it
    answers the n-th request with the n-th entry of its script. *)

Definition Script : Type := list (http.Response + error).

#[export] Instance ScriptedClient : HttpClient Script :=
  fun script _ =>
    match script with
    | r :: rest => (rest, r)
    | [] => ([], inr (foreignError "no response scripted"))
    end.

Definition replies (body : string) : http.Response + error :=
  inl {| http.ReadAll := (body, None) |}.

(** JSON texts below are written with apostrophes for the quotation marks. *)
Fixpoint dq (s : string) : string :=
  match s with
  | EmptyString => EmptyString
  | String c r => String (if Ascii.eqb c "'" then json.quote else c) (dq r)
  end.

Definition has_control (s : string) : bool :=
  existsb (fun c => (utf8.byte c <? 32) || (utf8.byte c =? 127))
    (list_ascii_of_string s).

(** A stand-in for the rest of the package: entities with no further
    fields, encoded with their two fields in order; a URL of the shape the
    spec gives (base, action, then the query in key order); and the one
    reason for which [net/url] rejects such a URL. *)
Definition example_Marshal (owner name : string) : string * option error :=
  (dq "{'owner':" +:+ json.quoted owner +:+ dq ",'name':" +:+ json.quoted name +:+ "}",
   None).

Definition example_GetUrl (cfg : AuthConfig) (action : string)
    (queryMap : gmap string string) : string :=
  Endpoint cfg +:+ "/" +:+ action +:+ "?"
  +:+ String.concat "&"
        (map (fun kv : string * string => kv.1 +:+ "=" +:+ kv.2)
           (merge_sort json.key_le (map_to_list queryMap))).

Definition ExamplePackage : Package :=
  {| UserMore := string;     (* the user's dedicated id *)
     PermissionMore := unit;
     RoleMore := unit;
     GetUrl := example_GetUrl;
     GetId := fun u => User_More u;
     Marshal_User := fun u => example_Marshal (User_Owner u) (User_Name u);
     Marshal_Permission :=
       fun p => example_Marshal (Permission_Owner p) (Permission_Name p);
     Marshal_Role := fun r => example_Marshal (Role_Owner r) (Role_Name r);
     url_Parse := fun u =>
       if has_control u
       then Some (foreignError "net/url: invalid control character in URL")
       else None |}.

Definition example_config : AuthConfig :=
  {| Endpoint := "http://localhost:8000"; ClientId := "id";
     ClientSecret := "secret"; OrganizationName := "built-in";
     ApplicationName := "app"; Certificate := EmptyString |}.

Definition example_world (script : Script) : World Script :=
  {| client := script; authConfig := example_config; sent := [] |}.

(** ** Reading the code: what each operation amounts to

    Spec-side definitions, phrased as the specification phrases them; the
    theorems below relate them to the code. *)

Fixpoint no_percent (s : string) : bool :=
  match s with
  | EmptyString => true
  | String c r => negb (Ascii.eqb c "%") && no_percent r
  end.

Section reading.
Context {float64 : Type} `{J : !Json float64} `{P : Package}.
Context {C : Type} `{HC : !HttpClient C}.
#[local] Abbreviation Response := (json.Response float64).
#[local] Abbreviation value := (json.value float64).

(** The body encoding [DoPost] selects, in the words of the spec. *)
Definition post_encoding (postBytes : string) (isForm isFile : bool)
  : (string * http.Reader) + error :=
  if isForm then
    if isFile then
      inl ("multipart/form-data", http.MultipartForm [("file", postBytes)])
    else
      match Unmarshal_params postBytes with
      | (_, Some err) => inr err
      | (params, None) =>
          inl ("application/x-www-form-urlencoded", http.UrlencodedForm params)
      end
  else inl ("text/plain;charset=UTF-8", http.BytesReader postBytes).

(** The requests a POST of [ct] and [body] puts on the wire: one, unless
    the URL is rejected. *)
Definition posted (cfg : AuthConfig) (action : string)
    (queryMap : gmap string string) (ct : string) (body : http.Reader)
  : list http.Request :=
  let url := GetUrl cfg action queryMap in
  match url_Parse url with
  | Some _ => []
  | None => [post_request cfg url ct body]
  end.

(** What a mutator makes of the result of [DoPost]. *)
Definition mutate_result (r : option Response * option error)
  : option Response * bool * option error :=
  match r with
  | (_, Some err) => (None, false, Some err)
  | (Some r, None) => (Some r, interface_eq_string (Data r) "Affected", None)
  | (None, None) => (None, false, None)
  end.

(** A mutator from the serialization on. *)
Definition mutate_post (action : string) (queryMap : gmap string string)
    (marshalled : string * option error) (w : World C)
  : (option Response * bool * option error) * World C :=
  match marshalled with
  | (_, Some err) => ((None, false, Some err), w)
  | (postBytes, None) =>
      (mutate_result (DoPost action queryMap postBytes false false w).1,
       (DoPost action queryMap postBytes false false w).2)
  end.

(** The requests a mutator sends, given the serialization of its entity. *)
Definition mutate_sent (cfg : AuthConfig) (action : string)
    (queryMap : gmap string string) (marshalled : string * option error)
  : list http.Request :=
  match marshalled with
  | (_, Some _) => []
  | (postBytes, None) =>
      posted cfg action queryMap "text/plain;charset=UTF-8"
        (http.BytesReader postBytes)
  end.

(** The entity with its [Owner] overwritten. *)
Definition stamp_User (org : string) (u : User UserMore) : User UserMore :=
  {| User_Owner := org; User_Name := User_Name u; User_More := User_More u |}.
Definition stamp_Permission (org : string) (p : Permission PermissionMore)
  : Permission PermissionMore :=
  {| Permission_Owner := org; Permission_Name := Permission_Name p;
     Permission_More := Permission_More p |}.
Definition stamp_Role (org : string) (r : Role RoleMore) : Role RoleMore :=
  {| Role_Owner := org; Role_Name := Role_Name r; Role_More := Role_More r |}.

(** A pair of results as Go code returns them: a value or an error,
    never both and never neither; a returned envelope says [ok]. *)
Definition exactly_one (r : option Response * option error) : Prop :=
  match r with
  | (Some resp, None) => Status resp = "ok"
  | (None, Some _) => True
  | _ => False
  end.

(** The triple of a mutator: an error alone, or an envelope with its
    [affected] flag. *)
Definition triple_ok (t : option Response * bool * option error) : Prop :=
  match t with
  | (Some r, affected, None) =>
      Status r = "ok" /\ (affected = true <-> Data r = VString "Affected")
  | (None, false, Some _) => True
  | _ => False
  end.

(** What the client's answer to [req] reads as: the body, or the error
    of the round trip or of the read. *)
Definition received (w : World C) (req : http.Request) : string * option error :=
  read_result (client_Do req w).1.

End reading.

(** ** Scenarios

    The concrete setting of the examples: the model of [encoding/json]
    over [IntFloat64], the stand-in package, and a scripted client. *)

Definition ExampleJson : Json Z := GoJson (F64 := IntFloat64).

Definition ok_affected : string := dq "{'status':'ok','msg':'','data':'Affected'}".
Definition user_not_found : string := dq "{'status':'error','msg':'user not found'}".
Definition quota_message : string := dq "{'status':'error','msg':'100%'}".
Definition spaced_payload : string := dq "['a', 'b']".
Definition spaced_data : string :=
  dq "{'status':'ok','msg':'','data':" +:+ spaced_payload +:+ "}".

Definition example_user : User string :=
  {| User_Owner := "org1"; User_Name := "alice"; User_More := "7c4d" |}.
Definition example_permission : Permission unit :=
  {| Permission_Owner := "org1"; Permission_Name := "read-all"; Permission_More := tt |}.
Definition example_role : Role unit :=
  {| Role_Owner := "org1"; Role_Name := "editor"; Role_More := tt |}.

Definition example_post (url body : string) : http.Request :=
  post_request example_config url "text/plain;charset=UTF-8" (http.BytesReader body).

Definition user_request : http.Request :=
  example_post "http://localhost:8000/update-user?columns=name,email&id=7c4d"
    (dq "{'owner':'built-in','name':'alice'}").
Definition permission_request : http.Request :=
  example_post "http://localhost:8000/update-permission?columns=name,email&id=org1/read-all"
    (dq "{'owner':'built-in','name':'read-all'}").
Definition role_request : http.Request :=
  example_post "http://localhost:8000/add-role?id=org1/editor"
    (dq "{'owner':'built-in','name':'editor'}").

Definition ok_envelope : json.Response Z :=
  {| Status := "ok"; Msg := EmptyString; Data := VString "Affected"; Data2 := VNil |}.

Definition run_modifyUser action user columns (script : Script) :=
  modifyUser (J := ExampleJson) (P := ExamplePackage)
    action user columns (example_world script).
Definition run_modifyPermission action permission columns (script : Script) :=
  modifyPermission (J := ExampleJson) (P := ExamplePackage)
    action permission columns (example_world script).
Definition run_modifyRole action role columns (script : Script) :=
  modifyRole (J := ExampleJson) (P := ExamplePackage)
    action role columns (example_world script).
Definition run_DoGetResponse url (script : Script) :=
  DoGetResponse (J := ExampleJson) (P := ExamplePackage)
    url (example_world script).
Definition run_DoGetBytes url (script : Script) :=
  DoGetBytes (J := ExampleJson) (P := ExamplePackage)
    url (example_world script).
Definition run_DoPost action queryMap postBytes isForm isFile (script : Script) :=
  DoPost (J := ExampleJson) (P := ExamplePackage)
    action queryMap postBytes isForm isFile (example_world script).

Definition world_ok : World Script := example_world [replies ok_affected].
Definition world_error : World Script := example_world [replies user_not_found].
Definition world_quota : World Script := example_world [replies quota_message].
Definition world_spaced : World Script := example_world [replies spaced_data].

Definition spaced_envelope : json.Response Z :=
  {| Status := "ok"; Msg := EmptyString;
     Data := VSlice [VString "a"; VString "b"]; Data2 := VNil |}.
Definition quota_envelope : json.Response Z :=
  {| Status := "error"; Msg := "100%"; Data := VNil; Data2 := VNil |}.

Definition example_url : string := "http://localhost:8000/get-user?id=org1/alice".
Definition form_bytes : string := dq "{'grant_type':'password','username':'alice'}".
Definition form_params : gmap string string :=
  <["username" := "alice"]> {[ "grant_type" := "password" ]}.

(** ** Failure scenarios *)

Definition connection_refused : error := foreignError "dial tcp: connection refused".
Definition unexpected_EOF : error := foreignError "unexpected EOF".

(** The round trip fails; the body breaks off after a complete envelope
    was read; the body is not JSON; the body is an envelope of the wrong
    shape. *)
Definition world_refused : World Script := example_world [inr connection_refused].
Definition world_truncated : World Script :=
  example_world [inl {| http.ReadAll := (ok_affected, Some unexpected_EOF) |}].
Definition bad_gateway : string := "<html>502 Bad Gateway</html>".
Definition world_html : World Script := example_world [replies bad_gateway].
Definition mistyped : string := dq "{'status':'ok','msg':404,'data':'Affected'}".
Definition world_mistyped : World Script := example_world [replies mistyped].
Definition mistyped_envelope : json.Response Z :=
  {| Status := "ok"; Msg := EmptyString; Data := VString "Affected"; Data2 := VNil |}.
Definition user_not_found_envelope : json.Response Z :=
  {| Status := "error"; Msg := "user not found"; Data := VNil; Data2 := VNil |}.

(** A URL and an action with a line feed in them, which [net/url] rejects. *)
Definition line_feed : string := String (ascii_of_N 10) EmptyString.
Definition bad_url : string := "http://localhost:8000/get-user" +:+ line_feed.
Definition bad_action : string := "add-role" +:+ line_feed.
Definition control_error : error :=
  foreignError "net/url: invalid control character in URL".

(** A second stand-in for the rest of the package: every entity carries
    one more field, a score that may be NaN (which JSON cannot express, so
    that [json.Marshal] fails on it), and a user's id is composed of owner
    and name. *)
Definition NaN_error : error := UnsupportedValueError "NaN".

Definition scored_Marshal (owner name : string) (nan : bool)
  : string * option error :=
  if nan then (EmptyString, Some NaN_error) else example_Marshal owner name.

Definition ScoredPackage : Package :=
  {| UserMore := bool;
     PermissionMore := bool;
     RoleMore := bool;
     GetUrl := example_GetUrl;
     GetId := fun u => User_Owner u +:+ "/" +:+ User_Name u;
     Marshal_User := fun u => scored_Marshal (User_Owner u) (User_Name u) (User_More u);
     Marshal_Permission :=
       fun p => scored_Marshal (Permission_Owner p) (Permission_Name p)
                  (Permission_More p);
     Marshal_Role := fun r => scored_Marshal (Role_Owner r) (Role_Name r) (Role_More r);
     url_Parse := fun u => if has_control u then Some control_error else None |}.

Definition scored_user (nan : bool) : User bool :=
  {| User_Owner := "org1"; User_Name := "alice"; User_More := nan |}.
Definition scored_permission (nan : bool) : Permission bool :=
  {| Permission_Owner := "org1"; Permission_Name := "read-all"; Permission_More := nan |}.
Definition scored_role (nan : bool) : Role bool :=
  {| Role_Owner := "org1"; Role_Name := "editor"; Role_More := nan |}.

Definition alice_request : http.Request :=
  example_post "http://localhost:8000/update-user?id=org1/alice"
    (dq "{'owner':'built-in','name':'alice'}").
Definition default_post : http.Request :=
  post_request example_config example_url "text/plain;charset=UTF-8"
    (http.BytesReader "{}").

Definition alice_json : string := dq "{'owner':'built-in','name':'alice'}".
Definition read_all_json : string := dq "{'owner':'built-in','name':'read-all'}".
Definition editor_json : string := dq "{'owner':'built-in','name':'editor'}".
Definition text_plain : string := "text/plain;charset=UTF-8".

Definition elsewhere_user : User string :=
  {| User_Owner := "some-other-org"; User_Name := "alice"; User_More := "7c4d" |}.
Definition fresh_client : Script := [replies ok_affected].

Section answers.
Context {float64 : Type} `{J : !Json float64} {C : Type} `{HC : !HttpClient C}.

(** The client answers [req] with a body that reads in full and decodes,
    without error, to the envelope [r]. *)
Definition answered (w : World C) (req : http.Request)
    (r : json.Response float64) : Prop :=
  exists b, received w req = (b, None) /\ Unmarshal_Response b = (r, None).

End answers.

(** * Properties *)

(** ** fmt and strings *)


Lemma doPrintf_no_percent (s : string) :
  no_percent s = true -> fmt.doPrintf s 0 = s.
Proof.
  induction s as [|c r IH]; simpl; [reflexivity|].
  intros H. apply andb_prop in H as [Hc Hr].
  destruct (Ascii.eqb c "%"); [discriminate|].
  now rewrite IH.
Qed.

Lemma Errorf_no_percent (msg : string) :
  no_percent msg = true -> Error (fmt.Errorf msg) = msg.
Proof. intros H. unfold fmt.Errorf. simpl. now apply doPrintf_no_percent. Qed.

Lemma Join_concat (elems : list string) (sep : string) :
  strings.Join elems sep = String.concat sep elems.
Proof.
  induction elems as [|x [|y r] IH]; simpl in *; try reflexivity.
  now rewrite IH.
Qed.

(** ** The query map of the mutators *)

Lemma mutate_query_id (id : string) (columns : list string) :
  mutate_query id columns !! "id" = Some id.
Proof.
  unfold mutate_query. destruct columns.
  - apply lookup_singleton_eq.
  - rewrite lookup_insert_ne by discriminate. apply lookup_singleton_eq.
Qed.

Lemma mutate_query_columns (id : string) (columns : list string) :
  mutate_query id columns !! "columns" =
    match columns with
    | [] => None
    | _ => Some (strings.Join columns ",")
    end.
Proof.
  unfold mutate_query. destruct columns.
  - apply lookup_singleton_ne. discriminate.
  - apply lookup_insert_eq.
Qed.

Lemma mutate_query_dom (id : string) (columns : list string) :
  dom (mutate_query id columns) =
    match columns with
    | [] => {[ "id" ]}
    | _ => {[ "columns"; "id" ]}
    end.
Proof.
  unfold mutate_query. destruct columns.
  - apply dom_singleton_L.
  - rewrite dom_insert_L, dom_singleton_L. reflexivity.
Qed.

Section pipeline.
Context {float64 : Type} `{J : !Json float64} `{P : Package}.
Context {C : Type} `{HC : !HttpClient C}.
#[local] Abbreviation Response := (json.Response float64).
#[local] Abbreviation value := (json.value float64).
Implicit Types (w : World C) (url action : string).

Lemma client_Do_sent req w : sent (client_Do req w).2 = (sent w ++ [req])%list.
Proof. unfold client_Do. destruct (Do (client w) req). reflexivity. Qed.

Lemma client_Do_authConfig req w : authConfig (client_Do req w).2 = authConfig w.
Proof. unfold client_Do. destruct (Do (client w) req). reflexivity. Qed.

Lemma sent_by_client_Do req w : sent_by (client_Do req) w = [req].
Proof.
  unfold sent_by. rewrite client_Do_sent.
  rewrite drop_app_length. reflexivity.
Qed.

(** The GET pipeline, run from [w]. *)
Lemma DoGetBytesRaw_run url w :
  DoGetBytesRaw url w =
    match url_Parse url with
    | Some err => ((nil_bytes, Some err), w)
    | None =>
        let req := get_request (authConfig w) url in
        (read_result (client_Do req w).1, (client_Do req w).2)
    end.
Proof.
  unfold DoGetBytesRaw, NewRequest.
  destruct (url_Parse url); [reflexivity|].
  unfold mbind, M_bind, gets, http.SetBasicAuth, get_request; simpl.
  destruct (client_Do _ w) as [[resp|err] w']; simpl; [|reflexivity].
  destruct (http.ReadAll resp) as [b [e|]]; reflexivity.
Qed.

Lemma DoGetResponse_run url w :
  DoGetResponse url w =
    match url_Parse url with
    | Some err => ((None, Some err), w)
    | None =>
        let req := get_request (authConfig w) url in
        (envelope_result (read_result (client_Do req w).1), (client_Do req w).2)
    end.
Proof.
  unfold DoGetResponse, mbind, M_bind. rewrite DoGetBytesRaw_run.
  destruct (url_Parse url); [reflexivity|]. simpl.
  destruct (read_result _) as [b [e|]]; [reflexivity|]. simpl.
  destruct (Unmarshal_Response b) as [r [e|]]; [reflexivity|].
  destruct (String.eqb (Status r) "ok"); reflexivity.
Qed.

Lemma DoGetBytes_run url w :
  DoGetBytes url w =
    ((match (DoGetResponse url w).1 with
      | (_, Some err) => (nil_bytes, Some err)
      | (Some response, None) =>
          match Marshal_value (Data response) with
          | (_, Some err) => (nil_bytes, Some err)
          | (res, None) => (res, None)
          end
      | (None, None) => (nil_bytes, None)
      end), (DoGetResponse url w).2).
Proof.
  unfold DoGetBytes, mbind, M_bind.
  destruct (DoGetResponse url w) as [[[r|] [e|]] w']; simpl; try reflexivity.
  destruct (Marshal_value (Data r)) as [b [e|]]; reflexivity.
Qed.

(** The POST pipeline, run from [w]. *)
Lemma DoPost_send_run url contentType body w :
  contentType <> EmptyString ->
  DoPost_send url contentType body w =
    match url_Parse url with
    | Some err => ((None, Some err), w)
    | None =>
        let req := post_request (authConfig w) url contentType body in
        (envelope_result (read_result (client_Do req w).1), (client_Do req w).2)
    end.
Proof.
  intros Hct.
  unfold DoPost_send, DoPostBytesRaw, NewRequest, mbind, M_bind.
  destruct (String.eqb_spec contentType EmptyString) as [|_]; [contradiction|].
  destruct (url_Parse url); [reflexivity|].
  unfold gets, http.SetBasicAuth, http.Header_Set, post_request; simpl.
  destruct (client_Do _ w) as [[resp|err] w']; simpl; [|reflexivity].
  destruct (http.ReadAll resp) as [b [e|]]; simpl; [reflexivity|].
  destruct (Unmarshal_Response b) as [r [e|]]; [reflexivity|].
  destruct (String.eqb (Status r) "ok"); reflexivity.
Qed.


Lemma post_encoding_contentType postBytes isForm isFile ct body :
  post_encoding postBytes isForm isFile = inl (ct, body) -> ct <> EmptyString.
Proof.
  unfold post_encoding. destruct isForm, isFile;
    try destruct (Unmarshal_params postBytes) as [? [?|]];
    intros [= <- _]; discriminate.
Qed.

Lemma DoPost_run action queryMap postBytes isForm isFile w :
  DoPost action queryMap postBytes isForm isFile w =
    match post_encoding postBytes isForm isFile with
    | inr err => ((None, Some err), w)
    | inl (ct, body) =>
        DoPost_send (GetUrl (authConfig w) action queryMap) ct body w
    end.
Proof.
  unfold DoPost, post_encoding, mbind, M_bind, gets, createFormFile, createForm.
  destruct isForm, isFile; try reflexivity.
  destruct (Unmarshal_params postBytes) as [? [?|]]; reflexivity.
Qed.



Lemma query_columns (id : string) (columns : list string) :
  (if negb (length columns =? 0)%nat
   then <["columns" := strings.Join columns ","]> ({[ "id" := id ]} : gmap string string)
   else {[ "id" := id ]}) = mutate_query id columns.
Proof. destruct columns; reflexivity. Qed.


Ltac run_mutator :=
  unfold mbind, M_bind, gets, mutate_post; simpl;
  rewrite query_columns;
  match goal with |- context [match ?m with (_, _) => _ end] => destruct m as [b [e|]] end;
  [reflexivity|];
  match goal with |- context [DoPost ?a ?q ?b false false ?w] =>
    destruct (DoPost a q b false false w) as [[[r|] [e|]] w'] end;
  reflexivity.

Lemma modifyUserById_run action id user columns w :
  modifyUserById action id user columns w =
    let user' := stamp_User (OrganizationName (authConfig w)) user in
    let r := mutate_post action (mutate_query id columns) (Marshal_User user') w in
    ((user', r.1), r.2).
Proof. unfold modifyUserById, stamp_User. run_mutator. Qed.

Lemma modifyPermission_run action permission columns w :
  modifyPermission action permission columns w =
    let permission' := stamp_Permission (OrganizationName (authConfig w)) permission in
    let id := Permission_Owner permission +:+ "/" +:+ Permission_Name permission in
    let r := mutate_post action (mutate_query id columns)
               (Marshal_Permission permission') w in
    ((permission', r.1), r.2).
Proof. unfold modifyPermission, stamp_Permission, fmt.Sprintf_s_slash_s. run_mutator. Qed.

Lemma modifyRole_run action role columns w :
  modifyRole action role columns w =
    let role' := stamp_Role (OrganizationName (authConfig w)) role in
    let id := Role_Owner role +:+ "/" +:+ Role_Name role in
    let r := mutate_post action (mutate_query id columns) (Marshal_Role role') w in
    ((role', r.1), r.2).
Proof. unfold modifyRole, stamp_Role, fmt.Sprintf_s_slash_s. run_mutator. Qed.

(** *** What the operations send *)

Lemma sent_by_ret {A} (a : A) w : sent_by (fun w => (a, w)) w = [].
Proof. unfold sent_by. simpl. apply drop_all. Qed.

Lemma sent_by_DoPost_send url contentType body w :
  contentType <> EmptyString ->
  sent_by (DoPost_send url contentType body) w =
    match url_Parse url with
    | Some _ => []
    | None => [post_request (authConfig w) url contentType body]
    end.
Proof.
  intros Hct. unfold sent_by. rewrite DoPost_send_run by assumption.
  destruct (url_Parse url); simpl.
  - apply drop_all.
  - rewrite client_Do_sent. apply drop_app_length.
Qed.

Lemma sent_by_DoPost action queryMap postBytes isForm isFile w :
  sent_by (DoPost action queryMap postBytes isForm isFile) w =
    match post_encoding postBytes isForm isFile with
    | inr _ => []
    | inl (ct, body) => posted (authConfig w) action queryMap ct body
    end.
Proof.
  pose proof (post_encoding_contentType postBytes isForm isFile) as Hct.
  unfold sent_by at 1. rewrite DoPost_run.
  destruct (post_encoding postBytes isForm isFile) as [[ct body]|err].
  - apply sent_by_DoPost_send. now apply (Hct ct body).
  - apply drop_all.
Qed.

Lemma sent_by_mutate_post action queryMap marshalled w :
  drop (length (sent w)) (sent (mutate_post action queryMap marshalled w).2) =
    mutate_sent (authConfig w) action queryMap marshalled.
Proof.
  unfold mutate_post, mutate_sent. destruct marshalled as [b [e|]]; simpl.
  - apply drop_all.
  - apply (sent_by_DoPost action queryMap b false false w).
Qed.

Lemma sent_by_modifyUserById action id user columns w :
  sent_by (modifyUserById action id user columns) w =
    mutate_sent (authConfig w) action (mutate_query id columns)
      (Marshal_User (stamp_User (OrganizationName (authConfig w)) user)).
Proof.
  unfold sent_by. rewrite modifyUserById_run. apply sent_by_mutate_post.
Qed.

Lemma sent_by_modifyPermission action permission columns w :
  sent_by (modifyPermission action permission columns) w =
    mutate_sent (authConfig w) action
      (mutate_query (Permission_Owner permission +:+ "/" +:+ Permission_Name permission)
         columns)
      (Marshal_Permission
         (stamp_Permission (OrganizationName (authConfig w)) permission)).
Proof.
  unfold sent_by. rewrite modifyPermission_run. apply sent_by_mutate_post.
Qed.

Lemma sent_by_modifyRole action role columns w :
  sent_by (modifyRole action role columns) w =
    mutate_sent (authConfig w) action
      (mutate_query (Role_Owner role +:+ "/" +:+ Role_Name role) columns)
      (Marshal_Role (stamp_Role (OrganizationName (authConfig w)) role)).
Proof.
  unfold sent_by. rewrite modifyRole_run. apply sent_by_mutate_post.
Qed.

(** Every request a mutator sends is the plain-text POST of the
    serialization, to the URL of its query map. *)
Lemma mutate_sent_inv cfg action queryMap marshalled req :
  req ∈ mutate_sent cfg action queryMap marshalled ->
  marshalled.2 = None
  /\ req = post_request cfg (GetUrl cfg action queryMap)
             "text/plain;charset=UTF-8" (http.BytesReader marshalled.1).
Proof.
  unfold mutate_sent, posted. destruct marshalled as [b [e|]]; simpl.
  - intros H. inversion H.
  - destruct (url_Parse _); intros H.
    + inversion H.
    + apply list_elem_of_singleton in H. now subst.
Qed.

(** *** The shape of the results *)

Lemma envelope_result_exactly_one raw : exactly_one (envelope_result raw).
Proof.
  unfold envelope_result. destruct raw as [b [e|]]; simpl; [exact I|].
  destruct (Unmarshal_Response b) as [r [e|]]; simpl; [exact I|].
  destruct (String.eqb_spec (Status r) "ok"); simpl; [assumption | exact I].
Qed.

Lemma DoGetResponse_exactly_one url w : exactly_one (DoGetResponse url w).1.
Proof.
  rewrite DoGetResponse_run. destruct (url_Parse url); simpl; [exact I|].
  apply envelope_result_exactly_one.
Qed.

Lemma DoPost_exactly_one action queryMap postBytes isForm isFile w :
  exactly_one (DoPost action queryMap postBytes isForm isFile w).1.
Proof.
  pose proof (post_encoding_contentType postBytes isForm isFile) as Hct.
  rewrite DoPost_run.
  destruct (post_encoding postBytes isForm isFile) as [[ct body]|err];
    simpl; [|exact I].
  rewrite DoPost_send_run by now apply (Hct ct body).
  destruct (url_Parse _); simpl; [exact I|].
  apply envelope_result_exactly_one.
Qed.

(** The dereference of a nil envelope in [DoGetBytes] and in the
    mutators is never reached. *)
Lemma DoGetResponse_nil_error url w : (DoGetResponse url w).1 <> (None, None).
Proof.
  pose proof (DoGetResponse_exactly_one url w) as H.
  intros E. rewrite E in H. exact H.
Qed.

Lemma DoPost_nil_error action queryMap postBytes isForm isFile w :
  (DoPost action queryMap postBytes isForm isFile w).1 <> (None, None).
Proof.
  pose proof (DoPost_exactly_one action queryMap postBytes isForm isFile w) as H.
  intros E. rewrite E in H. exact H.
Qed.

Lemma interface_eq_string_spec (v : value) (s : string) :
  interface_eq_string v s = true <-> v = VString s.
Proof.
  destruct v; simpl; split; try discriminate.
  - intros H. apply String.eqb_eq in H. now subst.
  - intros [= ->]. apply String.eqb_refl.
Qed.

Lemma mutate_post_triple action queryMap marshalled w :
  triple_ok (mutate_post action queryMap marshalled w).1.
Proof.
  unfold mutate_post. destruct marshalled as [b [e|]]; simpl; [exact I|].
  pose proof (DoPost_exactly_one action queryMap b false false w) as H.
  destruct (DoPost action queryMap b false false w) as [[[r|] [e|]] w'];
    simpl in *; try contradiction; try exact I.
  split; [assumption | apply interface_eq_string_spec].
Qed.

Lemma modifyUser_unfold action user columns :
  modifyUser action user columns = modifyUserById action (GetId user) user columns.
Proof. reflexivity. Qed.

(** *** Remote errors *)

(** An envelope whose status is not [ok] comes back as a nil envelope and
    the error [fmt.Errorf(msg)]. *)
Lemma envelope_result_not_ok b r :
  Unmarshal_Response b = (r, None) -> Status r <> "ok" ->
  envelope_result (b, None) = (None, Some (fmt.Errorf (Msg r))).
Proof.
  intros Hb Hs. unfold envelope_result. rewrite Hb.
  destruct (String.eqb_spec (Status r) "ok"); [contradiction | reflexivity].
Qed.

Lemma DoGetResponse_not_ok url w b r :
  url_Parse url = None ->
  received w (get_request (authConfig w) url) = (b, None) ->
  Unmarshal_Response b = (r, None) -> Status r <> "ok" ->
  (DoGetResponse url w).1 = (None, Some (fmt.Errorf (Msg r)))
  /\ (DoGetBytes url w).1 = (nil_bytes, Some (fmt.Errorf (Msg r))).
Proof.
  intros Hu Hr Hb Hs. unfold received in Hr.
  assert (H : (DoGetResponse url w).1 = (None, Some (fmt.Errorf (Msg r)))).
  { rewrite DoGetResponse_run, Hu. simpl. rewrite Hr.
    now apply envelope_result_not_ok. }
  split; [exact H|]. rewrite DoGetBytes_run. simpl. now rewrite H.
Qed.

Lemma DoPost_not_ok action queryMap postBytes isForm isFile ct body w b r :
  let url := GetUrl (authConfig w) action queryMap in
  post_encoding postBytes isForm isFile = inl (ct, body) ->
  url_Parse url = None ->
  received w (post_request (authConfig w) url ct body) = (b, None) ->
  Unmarshal_Response b = (r, None) -> Status r <> "ok" ->
  (DoPost action queryMap postBytes isForm isFile w).1
    = (None, Some (fmt.Errorf (Msg r))).
Proof.
  intros url He Hu Hr Hb Hs. unfold received in Hr.
  rewrite DoPost_run, He.
  rewrite DoPost_send_run by (eapply post_encoding_contentType; exact He).
  fold url. rewrite Hu. simpl. rewrite Hr. now apply envelope_result_not_ok.
Qed.

(** For a msg without a percent sign the error of a remote failure says
    the msg, byte for byte. *)
Lemma remote_error_message_verbatim url w b r :
  url_Parse url = None ->
  received w (get_request (authConfig w) url) = (b, None) ->
  Unmarshal_Response b = (r, None) -> Status r <> "ok" ->
  no_percent (Msg r) = true ->
  exists err, (DoGetResponse url w).1 = (None, Some err)
              /\ (DoGetBytes url w).1 = (nil_bytes, Some err)
              /\ Error err = Msg r.
Proof.
  intros Hu Hr Hb Hs Hp.
  destruct (DoGetResponse_not_ok url w b r Hu Hr Hb Hs) as [H1 H2].
  exists (fmt.Errorf (Msg r)). repeat split; try assumption.
  now apply Errorf_no_percent.
Qed.

(** *** The claims on the mutators *)

(** C2. Every mutator overwrites the entity's Owner with the configured
    organization name before it serializes the entity: whatever request
    it sends carries, as its body, the JSON encoding of the entity with
    Owner set to the organization (and that encoding succeeded),
    whatever Owner the entity had on entry.  ([modifyUser] is
    [modifyUserById] at the user's own id, see [modifyUser_unfold].) *)
Theorem owner_stamped_before_serialization
    action id (user : User UserMore) (permission : Permission PermissionMore)
    (role : Role RoleMore) columns w req :
  let org := OrganizationName (authConfig w) in
  (req ∈ sent_by (modifyUserById action id user columns) w ->
   let m := Marshal_User {| User_Owner := org; User_Name := User_Name user;
                            User_More := User_More user |} in
   m.2 = None /\ http.Body req = Some (http.BytesReader m.1))
  /\ (req ∈ sent_by (modifyPermission action permission columns) w ->
      let m := Marshal_Permission
                 {| Permission_Owner := org;
                    Permission_Name := Permission_Name permission;
                    Permission_More := Permission_More permission |} in
      m.2 = None /\ http.Body req = Some (http.BytesReader m.1))
  /\ (req ∈ sent_by (modifyRole action role columns) w ->
      let m := Marshal_Role {| Role_Owner := org; Role_Name := Role_Name role;
                               Role_More := Role_More role |} in
      m.2 = None /\ http.Body req = Some (http.BytesReader m.1)).
Proof.
  intros org. split; [|split].
  all: intros Hin m;
       try (rewrite sent_by_modifyUserById in Hin);
       try (rewrite sent_by_modifyPermission in Hin);
       try (rewrite sent_by_modifyRole in Hin);
       apply mutate_sent_inv in Hin as [Hm ->]; split; [exact Hm | reflexivity].
Qed.

(** C3. For a Permission and for a Role, the id under which the request
    is addressed is Owner/Name with the Owner the entity had on entry,
    not the organization written over it. *)
Theorem id_from_owner_on_entry
    action (permission : Permission PermissionMore) (role : Role RoleMore)
    columns w req :
  (req ∈ sent_by (modifyPermission action permission columns) w ->
   let id := Permission_Owner permission +:+ "/" +:+ Permission_Name permission in
   http.URL req = GetUrl (authConfig w) action (mutate_query id columns)
   /\ mutate_query id columns !! "id" = Some id)
  /\ (req ∈ sent_by (modifyRole action role columns) w ->
      let id := Role_Owner role +:+ "/" +:+ Role_Name role in
      http.URL req = GetUrl (authConfig w) action (mutate_query id columns)
      /\ mutate_query id columns !! "id" = Some id).
Proof.
  split; intros H id.
  - rewrite sent_by_modifyPermission in H.
    apply mutate_sent_inv in H as [_ ->].
    split; [reflexivity | apply mutate_query_id].
  - rewrite sent_by_modifyRole in H.
    apply mutate_sent_inv in H as [_ ->].
    split; [reflexivity | apply mutate_query_id].
Qed.

(** C4. A mutator that returns a nil error returns an envelope, and its
    affected flag is true exactly when the envelope's data is the
    string Affected. *)
Theorem affected_iff_data_Affected
    action id (user : User UserMore) (permission : Permission PermissionMore)
    (role : Role RoleMore) columns w resp affected :
  ((modifyUserById action id user columns w).1.2 = (resp, affected, None) ->
   exists r, resp = Some r /\ (affected = true <-> Data r = VString "Affected"))
  /\ ((modifyPermission action permission columns w).1.2 = (resp, affected, None) ->
      exists r, resp = Some r /\ (affected = true <-> Data r = VString "Affected"))
  /\ ((modifyRole action role columns w).1.2 = (resp, affected, None) ->
      exists r, resp = Some r /\ (affected = true <-> Data r = VString "Affected")).
Proof.
  assert (Hshape : forall t, triple_ok t -> t = (resp, affected, None) ->
            exists r, resp = Some r
                      /\ (affected = true <-> Data r = VString "Affected")).
  { intros [[[r|] a] [e|]] Ht [= <- <- ]; simpl in Ht; try contradiction;
      try (destruct a; contradiction).
    exists r. split; [reflexivity | apply Ht]. }
  split; [|split]; intros H; eapply Hshape; try exact H.
  - rewrite modifyUserById_run. apply mutate_post_triple.
  - rewrite modifyPermission_run. apply mutate_post_triple.
  - rewrite modifyRole_run. apply mutate_post_triple.
Qed.

(** C6. The columns query parameter of a mutator's request is the
    comma-join of the column list in input order when the list is not
    empty, and is absent when it is empty. *)
Theorem columns_query_parameter
    action id (user : User UserMore) (permission : Permission PermissionMore)
    (role : Role RoleMore) columns w req :
  let joined := match columns with
                | [] => None
                | _ => Some (String.concat "," columns)
                end in
  (req ∈ sent_by (modifyUserById action id user columns) w ->
   http.URL req = GetUrl (authConfig w) action (mutate_query id columns)
   /\ mutate_query id columns !! "columns" = joined)
  /\ (req ∈ sent_by (modifyPermission action permission columns) w ->
      let id := Permission_Owner permission +:+ "/" +:+ Permission_Name permission in
      http.URL req = GetUrl (authConfig w) action (mutate_query id columns)
      /\ mutate_query id columns !! "columns" = joined)
  /\ (req ∈ sent_by (modifyRole action role columns) w ->
      let id := Role_Owner role +:+ "/" +:+ Role_Name role in
      http.URL req = GetUrl (authConfig w) action (mutate_query id columns)
      /\ mutate_query id columns !! "columns" = joined).
Proof.
  intros joined.
  assert (Hj : forall i, mutate_query i columns !! "columns" = joined).
  { intros i. rewrite mutate_query_columns. unfold joined.
    destruct columns; [reflexivity|]. now rewrite Join_concat. }
  split; [|split].
  all: intros Hin; try intros id';
       try (rewrite sent_by_modifyUserById in Hin);
       try (rewrite sent_by_modifyPermission in Hin);
       try (rewrite sent_by_modifyRole in Hin);
       apply mutate_sent_inv in Hin as [_ ->]; split; [reflexivity | apply Hj].
Qed.

(** C8. A mutator writes through the pointer it is given: when it
    returns, with or without an error, the caller's entity has the
    configured organization name as its Owner, and nothing else of it
    has changed. *)
Theorem owner_overwritten_in_place
    action id (user : User UserMore) (permission : Permission PermissionMore)
    (role : Role RoleMore) columns w :
  let org := OrganizationName (authConfig w) in
  (modifyUserById action id user columns w).1.1
    = {| User_Owner := org; User_Name := User_Name user;
         User_More := User_More user |}
  /\ (modifyPermission action permission columns w).1.1
      = {| Permission_Owner := org;
           Permission_Name := Permission_Name permission;
           Permission_More := Permission_More permission |}
  /\ (modifyRole action role columns w).1.1
      = {| Role_Owner := org; Role_Name := Role_Name role;
           Role_More := Role_More role |}.
Proof.
  intros org.
  rewrite modifyUserById_run, modifyPermission_run, modifyRole_run.
  repeat split.
Qed.

(** C9. A mutator that returns an error returns a nil envelope and
    affected = false; it returns an envelope only with a nil error. *)
Theorem error_excludes_envelope
    action id (user : User UserMore) (permission : Permission PermissionMore)
    (role : Role RoleMore) columns w :
  let shape (t : option Response * bool * option error) :=
    (t.2 <> None -> t.1.1 = None /\ t.1.2 = false)
    /\ (t.1.1 <> None -> t.2 = None) in
  shape (modifyUserById action id user columns w).1.2
  /\ shape (modifyPermission action permission columns w).1.2
  /\ shape (modifyRole action role columns w).1.2.
Proof.
  intros shape.
  assert (Hshape : forall t, triple_ok t -> shape t).
  { intros [[[r|] a] [e|]] Ht; simpl in Ht; try contradiction;
      try (destruct a; try contradiction); split; simpl; intros H;
      try congruence; auto. }
  rewrite modifyUserById_run, modifyPermission_run, modifyRole_run.
  split; [|split]; apply Hshape; simpl; apply mutate_post_triple.
Qed.

(** *** The claims on the pipeline *)

(** C10. An envelope returned by [DoGetResponse] or by [DoPost] has
    status ok (and comes with a nil error). *)
Theorem returned_envelope_is_ok url action queryMap postBytes isForm isFile w r :
  ((DoGetResponse url w).1.1 = Some r ->
   Status r = "ok" /\ (DoGetResponse url w).1.2 = None)
  /\ ((DoPost action queryMap postBytes isForm isFile w).1.1 = Some r ->
      Status r = "ok"
      /\ (DoPost action queryMap postBytes isForm isFile w).1.2 = None).
Proof.
  split; intros H.
  - pose proof (DoGetResponse_exactly_one url w) as E.
    destruct (DoGetResponse url w).1 as [[r'|] [e|]]; simpl in *;
      try contradiction; try discriminate.
    injection H as ->. split; [exact E | reflexivity].
  - pose proof (DoPost_exactly_one action queryMap postBytes isForm isFile w) as E.
    destruct (DoPost action queryMap postBytes isForm isFile w).1
      as [[r'|] [e|]]; simpl in *; try contradiction; try discriminate.
    injection H as ->. split; [exact E | reflexivity].
Qed.

(** C5, as amended. For a response whose envelope has status ok,
    [DoGetBytes] returns what [json.Marshal] makes of the decoded data
    value (and Marshal's error, with nil bytes, if it has one): the
    value is passed on unmodified, its bytes are the encoder's. *)
Theorem DoGetBytes_marshals_decoded_data url w b r :
  url_Parse url = None ->
  received w (get_request (authConfig w) url) = (b, None) ->
  Unmarshal_Response b = (r, None) ->
  Status r = "ok" ->
  (DoGetBytes url w).1 =
    match Marshal_value (Data r) with
    | (_, Some err) => (nil_bytes, Some err)
    | (res, None) => (res, None)
    end.
Proof.
  intros Hu Hr Hb Hs. unfold received in Hr.
  rewrite DoGetBytes_run, DoGetResponse_run, Hu. simpl. rewrite Hr.
  unfold envelope_result. rewrite Hb, Hs. reflexivity.
Qed.

(** C7. [DoPost] encodes the body by its flags: form and file, a
    multipart form with the single part [file] holding the post bytes;
    form and not file, the post bytes decoded as a string-to-string map
    and sent urlencoded, the call failing with the decoder's error (and
    sending nothing) when they do not decode; otherwise the post bytes
    as they are, as text/plain.  In each case one request goes out,
    unless its URL is rejected. *)
Theorem DoPost_body_encoding action queryMap postBytes w :
  let cfg := authConfig w in
  sent_by (DoPost action queryMap postBytes true true) w
    = posted cfg action queryMap "multipart/form-data"
        (http.MultipartForm [("file", postBytes)])
  /\ (forall params, Unmarshal_params postBytes = (params, None) ->
      sent_by (DoPost action queryMap postBytes true false) w
        = posted cfg action queryMap "application/x-www-form-urlencoded"
            (http.UrlencodedForm params))
  /\ (forall params err, Unmarshal_params postBytes = (params, Some err) ->
      DoPost action queryMap postBytes true false w = ((None, Some err), w))
  /\ (forall isFile,
      sent_by (DoPost action queryMap postBytes false isFile) w
        = posted cfg action queryMap "text/plain;charset=UTF-8"
            (http.BytesReader postBytes)).
Proof.
  intros cfg. repeat split.
  - now rewrite sent_by_DoPost.
  - intros params Hp. rewrite sent_by_DoPost. unfold post_encoding.
    now rewrite Hp.
  - intros params err Hp. rewrite DoPost_run. unfold post_encoding.
    now rewrite Hp.
  - intros isFile. now rewrite sent_by_DoPost.
Qed.

End pipeline.

(** ** The scenarios of the specification, run *)

(** Scenario: mutate-role with action [add-role], role [org1/editor], no
    columns: the id in the query is [org1/editor], the body's owner is the
    configured organization, and the reply [Affected] gives affected = true
    with a nil error. *)
Example scenario_add_role :
  run_modifyRole "add-role" example_role [] [replies ok_affected]
  = (({| Role_Owner := "built-in"; Role_Name := "editor"; Role_More := tt |},
      (Some ok_envelope, true, None)),
     {| client := []; authConfig := example_config; sent := [role_request] |}).
Proof. vm_compute. reflexivity. Qed.

(** Scenario: an error envelope with msg [user not found]. *)
Example scenario_user_not_found :
  (run_modifyUser "update-user" example_user ["name"; "email"]
     [replies user_not_found]).1
  = ({| User_Owner := "built-in"; User_Name := "alice"; User_More := "7c4d" |},
     (None, false, Some (errorString "user not found"))).
Proof. vm_compute. reflexivity. Qed.

(** Scenario: a file upload is one multipart part named [file]. *)
Example scenario_file_upload :
  map http.Body
    (sent (run_DoPost "upload-resource" ∅ "raw bytes" true true
             [replies ok_affected]).2)
  = [Some (http.MultipartForm [("file", "raw bytes")])].
Proof. vm_compute. reflexivity. Qed.

(** ** The claims at the scenarios *)

Section scenarios.
#[local] Existing Instance ExampleJson.
#[local] Existing Instance ExamplePackage.

(** C2 at the three scenario requests. *)
Lemma owner_stamped_witness :
  (user_request
     ∈ sent_by (modifyUserById "update-user" "7c4d" example_user ["name"; "email"]) world_ok
   /\ http.Body user_request
      = Some (http.BytesReader (dq "{'owner':'built-in','name':'alice'}")))
  /\ (permission_request
        ∈ sent_by (modifyPermission "update-permission" example_permission
                     ["name"; "email"]) world_ok
      /\ http.Body permission_request
         = Some (http.BytesReader (dq "{'owner':'built-in','name':'read-all'}")))
  /\ (role_request ∈ sent_by (modifyRole "add-role" example_role []) world_ok
      /\ http.Body role_request
         = Some (http.BytesReader (dq "{'owner':'built-in','name':'editor'}"))).
Proof.
  assert (Hu : user_request
                 ∈ sent_by (modifyUserById "update-user" "7c4d" example_user
                              ["name"; "email"]) world_ok)
    by (vm_compute; left).
  assert (Hp : permission_request
                 ∈ sent_by (modifyPermission "update-permission" example_permission
                              ["name"; "email"]) world_ok)
    by (vm_compute; left).
  assert (Hr : role_request ∈ sent_by (modifyRole "add-role" example_role []) world_ok)
    by (vm_compute; left).
  split; [|split]; (split; [assumption|]).
  - exact (proj2 (proj1 (owner_stamped_before_serialization
                           "update-user" "7c4d" example_user example_permission
                           example_role ["name"; "email"] world_ok user_request) Hu)).
  - exact (proj2 (proj1 (proj2 (owner_stamped_before_serialization
                           "update-permission" "7c4d" example_user example_permission
                           example_role ["name"; "email"] world_ok permission_request)) Hp)).
  - exact (proj2 (proj2 (proj2 (owner_stamped_before_serialization
                           "add-role" "7c4d" example_user example_permission
                           example_role [] world_ok role_request)) Hr)).
Defined.

(** C3 at the permission and role requests: the id keeps [org1]. *)
Lemma id_from_owner_witness :
  (permission_request
     ∈ sent_by (modifyPermission "update-permission" example_permission
                  ["name"; "email"]) world_ok
   /\ http.URL permission_request
      = GetUrl example_config "update-permission"
          (mutate_query "org1/read-all" ["name"; "email"])
   /\ mutate_query "org1/read-all" ["name"; "email"] !! "id" = Some "org1/read-all")
  /\ (role_request ∈ sent_by (modifyRole "add-role" example_role []) world_ok
      /\ http.URL role_request
         = GetUrl example_config "add-role" (mutate_query "org1/editor" [])
      /\ mutate_query "org1/editor" [] !! "id" = Some "org1/editor").
Proof.
  assert (Hp : permission_request
                 ∈ sent_by (modifyPermission "update-permission" example_permission
                              ["name"; "email"]) world_ok)
    by (vm_compute; left).
  assert (Hr : role_request ∈ sent_by (modifyRole "add-role" example_role []) world_ok)
    by (vm_compute; left).
  split; (split; [assumption|]).
  - exact (proj1 (id_from_owner_on_entry "update-permission" example_permission
                    example_role ["name"; "email"] world_ok permission_request) Hp).
  - exact (proj2 (id_from_owner_on_entry "add-role" example_permission
                    example_role [] world_ok role_request) Hr).
Defined.

(** C4 at the scenario envelope with data [Affected]. *)
Lemma affected_witness :
  ((modifyUserById "update-user" "7c4d" example_user ["name"] world_ok).1.2
     = (Some ok_envelope, true, None)
   /\ exists r, Some ok_envelope = Some r
                /\ (true = true <-> Data r = VString "Affected"))
  /\ ((modifyPermission "add-permission" example_permission [] world_ok).1.2
        = (Some ok_envelope, true, None)
      /\ exists r, Some ok_envelope = Some r
                   /\ (true = true <-> Data r = VString "Affected"))
  /\ ((modifyRole "add-role" example_role [] world_ok).1.2
        = (Some ok_envelope, true, None)
      /\ exists r, Some ok_envelope = Some r
                   /\ (true = true <-> Data r = VString "Affected")).
Proof.
  assert (Hu : (modifyUserById "update-user" "7c4d" example_user ["name"] world_ok).1.2
               = (Some ok_envelope, true, None)) by (vm_compute; reflexivity).
  assert (Hp : (modifyPermission "add-permission" example_permission [] world_ok).1.2
               = (Some ok_envelope, true, None)) by (vm_compute; reflexivity).
  assert (Hr : (modifyRole "add-role" example_role [] world_ok).1.2
               = (Some ok_envelope, true, None)) by (vm_compute; reflexivity).
  split; [|split]; (split; [assumption|]).
  - exact (proj1 (affected_iff_data_Affected "update-user" "7c4d" example_user
                    example_permission example_role ["name"] world_ok
                    (Some ok_envelope) true) Hu).
  - exact (proj1 (proj2 (affected_iff_data_Affected "add-permission" "7c4d"
                    example_user example_permission example_role [] world_ok
                    (Some ok_envelope) true)) Hp).
  - exact (proj2 (proj2 (affected_iff_data_Affected "add-role" "7c4d"
                    example_user example_permission example_role [] world_ok
                    (Some ok_envelope) true)) Hr).
Defined.

(** C6 with two columns and with none. *)
Lemma columns_witness :
  (user_request
     ∈ sent_by (modifyUserById "update-user" "7c4d" example_user ["name"; "email"]) world_ok
   /\ http.URL user_request
      = GetUrl example_config "update-user" (mutate_query "7c4d" ["name"; "email"])
   /\ mutate_query "7c4d" ["name"; "email"] !! "columns" = Some "name,email")
  /\ (permission_request
        ∈ sent_by (modifyPermission "update-permission" example_permission
                     ["name"; "email"]) world_ok
      /\ http.URL permission_request
         = GetUrl example_config "update-permission"
             (mutate_query "org1/read-all" ["name"; "email"])
      /\ mutate_query "org1/read-all" ["name"; "email"] !! "columns"
         = Some "name,email")
  /\ (role_request ∈ sent_by (modifyRole "add-role" example_role []) world_ok
      /\ http.URL role_request
         = GetUrl example_config "add-role" (mutate_query "org1/editor" [])
      /\ mutate_query "org1/editor" [] !! "columns" = None).
Proof.
  assert (Hu : user_request
                 ∈ sent_by (modifyUserById "update-user" "7c4d" example_user
                              ["name"; "email"]) world_ok)
    by (vm_compute; left).
  assert (Hp : permission_request
                 ∈ sent_by (modifyPermission "update-permission" example_permission
                              ["name"; "email"]) world_ok)
    by (vm_compute; left).
  assert (Hr : role_request ∈ sent_by (modifyRole "add-role" example_role []) world_ok)
    by (vm_compute; left).
  split; [|split]; (split; [assumption|]).
  - exact (proj1 (columns_query_parameter "update-user" "7c4d" example_user
                    example_permission example_role ["name"; "email"] world_ok
                    user_request) Hu).
  - exact (proj1 (proj2 (columns_query_parameter "update-permission" "7c4d"
                    example_user example_permission example_role ["name"; "email"]
                    world_ok permission_request)) Hp).
  - exact (proj2 (proj2 (columns_query_parameter "add-role" "7c4d" example_user
                    example_permission example_role [] world_ok role_request)) Hr).
Defined.

(** C9 at a remote error, and at a success for the converse. *)
Lemma error_excludes_envelope_witness :
  ((modifyUserById "update-user" "7c4d" example_user [] world_error).1.2.2 <> None
   /\ (modifyUserById "update-user" "7c4d" example_user [] world_error).1.2.1.1 = None
   /\ (modifyUserById "update-user" "7c4d" example_user [] world_error).1.2.1.2 = false)
  /\ ((modifyPermission "add-permission" example_permission [] world_error).1.2.2 <> None
      /\ (modifyPermission "add-permission" example_permission [] world_error).1.2.1.1 = None
      /\ (modifyPermission "add-permission" example_permission [] world_error).1.2.1.2 = false)
  /\ ((modifyRole "add-role" example_role [] world_error).1.2.2 <> None
      /\ (modifyRole "add-role" example_role [] world_error).1.2.1.1 = None
      /\ (modifyRole "add-role" example_role [] world_error).1.2.1.2 = false)
  /\ ((modifyRole "add-role" example_role [] world_ok).1.2.1.1 <> None
      /\ (modifyRole "add-role" example_role [] world_ok).1.2.2 = None).
Proof.
  assert (Hu : (modifyUserById "update-user" "7c4d" example_user [] world_error).1.2.2
               <> None) by (vm_compute; discriminate).
  assert (Hp : (modifyPermission "add-permission" example_permission [] world_error).1.2.2
               <> None) by (vm_compute; discriminate).
  assert (Hr : (modifyRole "add-role" example_role [] world_error).1.2.2 <> None)
    by (vm_compute; discriminate).
  assert (Ho : (modifyRole "add-role" example_role [] world_ok).1.2.1.1 <> None)
    by (vm_compute; discriminate).
  pose proof (error_excludes_envelope "update-user" "7c4d" example_user
                example_permission example_role [] world_error) as (Eu & _ & _).
  pose proof (error_excludes_envelope "add-permission" "7c4d" example_user
                example_permission example_role [] world_error) as (_ & Ep & _).
  pose proof (error_excludes_envelope "add-role" "7c4d" example_user
                example_permission example_role [] world_error) as (_ & _ & Er).
  pose proof (error_excludes_envelope "add-role" "7c4d" example_user
                example_permission example_role [] world_ok) as (_ & _ & Eo).
  split; [|split; [|split]]; (split; [assumption|]).
  - exact (proj1 Eu Hu).
  - exact (proj1 Ep Hp).
  - exact (proj1 Er Hr).
  - exact (proj2 Eo Ho).
Defined.

(** C10 at the scenario envelope. *)
Lemma returned_envelope_witness :
  ((DoGetResponse example_url world_ok).1.1 = Some ok_envelope
   /\ Status ok_envelope = "ok"
   /\ (DoGetResponse example_url world_ok).1.2 = None)
  /\ ((DoPost "add-user" ∅ "{}" false false world_ok).1.1 = Some ok_envelope
      /\ Status ok_envelope = "ok"
      /\ (DoPost "add-user" ∅ "{}" false false world_ok).1.2 = None).
Proof.
  assert (Hg : (DoGetResponse example_url world_ok).1.1 = Some ok_envelope)
    by (vm_compute; reflexivity).
  assert (Hp : (DoPost "add-user" ∅ "{}" false false world_ok).1.1 = Some ok_envelope)
    by (vm_compute; reflexivity).
  split; (split; [assumption|]).
  - exact (proj1 (returned_envelope_is_ok example_url "add-user" ∅ "{}" false false
                    world_ok ok_envelope) Hg).
  - exact (proj2 (returned_envelope_is_ok example_url "add-user" ∅ "{}" false false
                    world_ok ok_envelope) Hp).
Defined.

(** C5 as amended, at a payload with insignificant whitespace. *)
Lemma DoGetBytes_marshals_witness :
  url_Parse example_url = None
  /\ received world_spaced (get_request (authConfig world_spaced) example_url)
     = (spaced_data, None)
  /\ Unmarshal_Response spaced_data = (spaced_envelope, None)
  /\ Status spaced_envelope = "ok"
  /\ (DoGetBytes example_url world_spaced).1
     = match Marshal_value (Data spaced_envelope) with
       | (_, Some err) => (nil_bytes, Some err)
       | (res, None) => (res, None)
       end.
Proof.
  assert (H1 : url_Parse example_url = None) by (vm_compute; reflexivity).
  assert (H2 : received world_spaced (get_request (authConfig world_spaced) example_url)
               = (spaced_data, None)) by (vm_compute; reflexivity).
  assert (H3 : Unmarshal_Response spaced_data = (spaced_envelope, None))
    by (vm_compute; reflexivity).
  assert (H4 : Status spaced_envelope = "ok") by reflexivity.
  repeat (split; [assumption|]).
  exact (DoGetBytes_marshals_decoded_data example_url world_spaced spaced_data
           spaced_envelope H1 H2 H3 H4).
Defined.

(** C7 at a form that decodes and at one that does not. *)
Lemma DoPost_body_encoding_witness :
  (Unmarshal_params form_bytes = (form_params, None)
   /\ sent_by (DoPost "login" ∅ form_bytes true false) world_ok
      = posted (authConfig world_ok) "login" ∅ "application/x-www-form-urlencoded"
          (http.UrlencodedForm form_params))
  /\ (Unmarshal_params "[1]" = (∅, Some (UnmarshalTypeError "array"))
      /\ DoPost "login" ∅ "[1]" true false world_ok
         = ((None, Some (UnmarshalTypeError "array")), world_ok)).
Proof.
  assert (H1 : Unmarshal_params form_bytes = (form_params, None))
    by (vm_compute; reflexivity).
  assert (H2 : Unmarshal_params "[1]" = (∅, Some (UnmarshalTypeError "array")))
    by (vm_compute; reflexivity).
  split; (split; [assumption|]).
  - exact (proj1 (proj2 (DoPost_body_encoding "login" ∅ form_bytes world_ok))
             form_params H1).
  - exact (proj1 (proj2 (proj2 (DoPost_body_encoding "login" ∅ "[1]" world_ok)))
             ∅ (UnmarshalTypeError "array") H2).
Defined.

(** C5, as stated, fails: the payload [["a", "b"]] of an ok envelope comes
    back from [DoGetBytes] without its space, so not byte for byte. *)
Lemma DoGetBytes_not_byte_identity :
  spaced_data = dq "{'status':'ok','msg':'','data':" +:+ spaced_payload +:+ "}"
  /\ (DoGetResponse example_url world_spaced).1 = (Some spaced_envelope, None)
  /\ (DoGetBytes example_url world_spaced).1 = (dq "['a','b']", None)
  /\ (DoGetBytes example_url world_spaced).1.1 <> spaced_payload.
Proof.
  split; [reflexivity|].
  split; [vm_compute; reflexivity|].
  split; [vm_compute; reflexivity|].
  vm_compute. discriminate.
Qed.

(** C1 at the envelope with status error and msg [100%]: the three
    operations return a nil result and an error, but the error's message
    is [100%!(NOVERB)], not the msg: [fmt.Errorf] has read the msg as a
    format. *)
Theorem remote_msg_read_as_format :
  Unmarshal_Response quota_message = (quota_envelope, None)
  /\ (DoGetResponse example_url world_quota).1
     = (None, Some (errorString "100%!(NOVERB)"))
  /\ (DoGetBytes example_url world_quota).1
     = (nil_bytes, Some (errorString "100%!(NOVERB)"))
  /\ (DoPost "add-user" ∅ "{}" false false world_quota).1
     = (None, Some (errorString "100%!(NOVERB)"))
  /\ Error (errorString "100%!(NOVERB)") <> Msg quota_envelope.
Proof.
  repeat (split; [vm_compute; reflexivity|]).
  vm_compute. discriminate.
Qed.

End scenarios.

(** * Further properties of base.go *)

Section further.
Context {float64 : Type} `{J : !Json float64} `{P : Package}.
Context {C : Type} `{HC : !HttpClient C}.
#[local] Abbreviation Response := (json.Response float64).
Implicit Types (w : World C) (url action : string).

(** ** The raw helpers *)

Lemma DoPostBytesRaw_run url contentType body w :
  DoPostBytesRaw url contentType body w =
    match url_Parse url with
    | Some err => ((nil_bytes, Some err), w)
    | None =>
        let ct := if String.eqb contentType EmptyString
                  then "text/plain;charset=UTF-8" else contentType in
        let req := post_request (authConfig w) url ct body in
        (read_result (client_Do req w).1, (client_Do req w).2)
    end.
Proof.
  unfold DoPostBytesRaw, NewRequest.
  destruct (url_Parse url); [reflexivity|].
  unfold mbind, M_bind, gets, http.SetBasicAuth, http.Header_Set, post_request; simpl.
  destruct (client_Do _ w) as [[resp|err] w']; simpl; [|reflexivity].
  destruct (http.ReadAll resp) as [b [e|]]; reflexivity.
Qed.

Lemma sent_by_DoGetBytesRaw url w :
  sent_by (DoGetBytesRaw url) w =
    match url_Parse url with
    | Some _ => []
    | None => [get_request (authConfig w) url]
    end.
Proof.
  unfold sent_by. rewrite DoGetBytesRaw_run.
  destruct (url_Parse url); simpl.
  - apply drop_all.
  - rewrite client_Do_sent. apply drop_app_length.
Qed.

Lemma sent_by_DoGetResponse url w :
  sent_by (DoGetResponse url) w = sent_by (DoGetBytesRaw url) w.
Proof.
  unfold sent_by. rewrite DoGetResponse_run, DoGetBytesRaw_run.
  destruct (url_Parse url); reflexivity.
Qed.

Lemma sent_by_DoGetBytes url w :
  sent_by (DoGetBytes url) w = sent_by (DoGetBytesRaw url) w.
Proof.
  rewrite <- sent_by_DoGetResponse. unfold sent_by.
  rewrite DoGetBytes_run. reflexivity.
Qed.

Lemma sent_by_DoPostBytesRaw url contentType body w :
  sent_by (DoPostBytesRaw url contentType body) w =
    match url_Parse url with
    | Some _ => []
    | None =>
        [post_request (authConfig w) url
           (if String.eqb contentType EmptyString
            then "text/plain;charset=UTF-8" else contentType) body]
    end.
Proof.
  unfold sent_by. rewrite DoPostBytesRaw_run.
  destruct (url_Parse url); simpl.
  - apply drop_all.
  - rewrite client_Do_sent. apply drop_app_length.
Qed.

Lemma posted_length cfg action queryMap ct body :
  (length (posted cfg action queryMap ct body) <= 1)%nat.
Proof. unfold posted. destruct (url_Parse _); simpl; lia. Qed.

Lemma mutate_sent_length cfg action queryMap marshalled :
  (length (mutate_sent cfg action queryMap marshalled) <= 1)%nat.
Proof.
  unfold mutate_sent. destruct marshalled as [b [e|]]; simpl; [lia|].
  apply posted_length.
Qed.

(** X1. The three GET operations put the same single kind of request on
    the wire: method GET, the URL as given, the client id and secret of
    the configuration as basic-auth credentials, no header of their own
    and no body. *)
Theorem get_request_shape url w req :
  req ∈ sent_by (DoGetBytesRaw url) w
  \/ req ∈ sent_by (DoGetResponse url) w
  \/ req ∈ sent_by (DoGetBytes url) w ->
  http.Method req = "GET"
  /\ http.URL req = url
  /\ http.BasicAuth req
     = Some (ClientId (authConfig w), ClientSecret (authConfig w))
  /\ http.Header req = ∅
  /\ http.Body req = None.
Proof.
  rewrite sent_by_DoGetResponse, sent_by_DoGetBytes, sent_by_DoGetBytesRaw.
  intros H. assert (Hin : req ∈ match url_Parse url with
                                | Some _ => []
                                | None => [get_request (authConfig w) url]
                                end) by (destruct H as [H|[H|H]]; exact H).
  clear H. destruct (url_Parse url).
  - inversion Hin.
  - apply list_elem_of_singleton in Hin as ->. repeat split.
Qed.

(** X2. [DoPostBytesRaw] sends a POST of the given body to the given URL
    with the configured credentials; its Content-Type header is the
    content type it was given, and text/plain;charset=UTF-8 when it was
    given the empty string. *)
Theorem post_request_shape url contentType body w req :
  req ∈ sent_by (DoPostBytesRaw url contentType body) w ->
  http.Method req = "POST"
  /\ http.URL req = url
  /\ http.BasicAuth req
     = Some (ClientId (authConfig w), ClientSecret (authConfig w))
  /\ http.Header req
     = {[ "Content-Type" := if String.eqb contentType EmptyString
                            then "text/plain;charset=UTF-8" else contentType ]}
  /\ http.Body req = Some body.
Proof.
  rewrite sent_by_DoPostBytesRaw. destruct (url_Parse url); intros H.
  - inversion H.
  - apply list_elem_of_singleton in H as ->. repeat split.
Qed.

(** X3. No operation sends more than one request: there is no retry and
    no second round trip, whatever the client answers. *)
Theorem at_most_one_request
    url action id queryMap contentType body postBytes isForm isFile
    (user : User UserMore) (permission : Permission PermissionMore)
    (role : Role RoleMore) columns w :
  (length (sent_by (DoGetBytesRaw url) w) <= 1
   /\ length (sent_by (DoGetResponse url) w) <= 1
   /\ length (sent_by (DoGetBytes url) w) <= 1
   /\ length (sent_by (DoPostBytesRaw url contentType body) w) <= 1
   /\ length (sent_by (DoPost action queryMap postBytes isForm isFile) w) <= 1
   /\ length (sent_by (modifyUser action user columns) w) <= 1
   /\ length (sent_by (modifyUserById action id user columns) w) <= 1
   /\ length (sent_by (modifyPermission action permission columns) w) <= 1
   /\ length (sent_by (modifyRole action role columns) w) <= 1)%nat.
Proof.
  rewrite modifyUser_unfold.
  rewrite sent_by_DoGetResponse, sent_by_DoGetBytes, sent_by_DoGetBytesRaw,
    sent_by_DoPostBytesRaw, sent_by_DoPost, !sent_by_modifyUserById,
    sent_by_modifyPermission, sent_by_modifyRole.
  assert (Hu : forall (l : list http.Request) (x : http.Request),
             (length (match url_Parse url with Some _ => [] | None => [x] end)
              <= 1)%nat).
  { intros l x. destruct (url_Parse url); simpl; lia. }
  repeat split; auto using mutate_sent_length, posted_length.
  - apply (Hu []).
  - apply (Hu []).
  - apply (Hu []).
  - apply (Hu []).
  - destruct (post_encoding postBytes isForm isFile) as [[ct b]|e];
      [apply posted_length | simpl; lia].
Qed.

(** ** Where the requests go *)

(** X4. Whatever its flags, [DoPost] addresses its request to
    [GetUrl(action, queryMap)], as a POST with the configured
    credentials. *)
Theorem DoPost_addressing action queryMap postBytes isForm isFile w req :
  req ∈ sent_by (DoPost action queryMap postBytes isForm isFile) w ->
  http.Method req = "POST"
  /\ http.URL req = GetUrl (authConfig w) action queryMap
  /\ http.BasicAuth req
     = Some (ClientId (authConfig w), ClientSecret (authConfig w)).
Proof.
  rewrite sent_by_DoPost.
  destruct (post_encoding postBytes isForm isFile) as [[ct body]|e]; intros H.
  - unfold posted in H. destruct (url_Parse _); [inversion H|].
    apply list_elem_of_singleton in H as ->. repeat split.
  - inversion H.
Qed.

(** X5. Every request of a mutator is a POST with the configured
    credentials whose only header is Content-Type
    text/plain;charset=UTF-8 and whose body is a plain byte reader: the
    mutators never post a form. *)
Theorem mutator_request_envelope
    action id (user : User UserMore) (permission : Permission PermissionMore)
    (role : Role RoleMore) columns w req :
  req ∈ sent_by (modifyUser action user columns) w
  \/ req ∈ sent_by (modifyUserById action id user columns) w
  \/ req ∈ sent_by (modifyPermission action permission columns) w
  \/ req ∈ sent_by (modifyRole action role columns) w ->
  http.Method req = "POST"
  /\ http.BasicAuth req
     = Some (ClientId (authConfig w), ClientSecret (authConfig w))
  /\ http.Header req = {[ "Content-Type" := "text/plain;charset=UTF-8" ]}
  /\ exists b, http.Body req = Some (http.BytesReader b).
Proof.
  rewrite modifyUser_unfold, !sent_by_modifyUserById, sent_by_modifyPermission,
    sent_by_modifyRole.
  intros [H|[H|[H|H]]]; apply mutate_sent_inv in H as [_ ->];
    (repeat split; eexists; reflexivity).
Qed.

(** ** Failures *)

Lemma DoGetResponse_received url w :
  url_Parse url = None ->
  (DoGetResponse url w).1
    = envelope_result (received w (get_request (authConfig w) url)).
Proof. intros Hu. rewrite DoGetResponse_run, Hu. reflexivity. Qed.

Lemma DoPost_received action queryMap postBytes isForm isFile ct body w :
  let url := GetUrl (authConfig w) action queryMap in
  post_encoding postBytes isForm isFile = inl (ct, body) ->
  url_Parse url = None ->
  (DoPost action queryMap postBytes isForm isFile w).1
    = envelope_result (received w (post_request (authConfig w) url ct body)).
Proof.
  intros url He Hu. rewrite DoPost_run, He.
  rewrite DoPost_send_run by (eapply post_encoding_contentType; exact He).
  fold url. rewrite Hu. reflexivity.
Qed.

Lemma received_transport_error w req e :
  (Do (client w) req).2 = inr e -> received w req = (EmptyString, Some e).
Proof.
  unfold received, client_Do. destruct (Do (client w) req) as [c' r].
  simpl. intros ->. reflexivity.
Qed.

Lemma received_read_error w req resp partial e :
  (Do (client w) req).2 = inl resp -> http.ReadAll resp = (partial, Some e) ->
  received w req = (EmptyString, Some e).
Proof.
  unfold received, client_Do. destruct (Do (client w) req) as [c' r].
  simpl. intros -> Hr. simpl. rewrite Hr. reflexivity.
Qed.

Lemma DoGetBytesRaw_received url w :
  url_Parse url = None ->
  (DoGetBytesRaw url w).1 = received w (get_request (authConfig w) url).
Proof. intros Hu. rewrite DoGetBytesRaw_run, Hu. reflexivity. Qed.

Lemma DoGetBytes_error url w e :
  (DoGetResponse url w).1 = (None, Some e) ->
  (DoGetBytes url w).1 = (nil_bytes, Some e).
Proof. intros H. rewrite DoGetBytes_run. simpl. rewrite H. reflexivity. Qed.

(** X6. An error of the round trip itself reaches the caller as it is,
    not wrapped and not retried, with a nil result: from the GET
    operations and from [DoPost]. *)
Theorem transport_error_reaches_caller
    url action queryMap postBytes isForm isFile ct body w e :
  (url_Parse url = None ->
   (Do (client w) (get_request (authConfig w) url)).2 = inr e ->
   (DoGetBytesRaw url w).1 = (nil_bytes, Some e)
   /\ (DoGetResponse url w).1 = (None, Some e)
   /\ (DoGetBytes url w).1 = (nil_bytes, Some e))
  /\ (post_encoding postBytes isForm isFile = inl (ct, body) ->
      url_Parse (GetUrl (authConfig w) action queryMap) = None ->
      (Do (client w)
          (post_request (authConfig w) (GetUrl (authConfig w) action queryMap)
             ct body)).2 = inr e ->
      (DoPost action queryMap postBytes isForm isFile w).1 = (None, Some e)).
Proof.
  split.
  - intros Hu Hd. apply received_transport_error in Hd.
    assert (Hr : (DoGetResponse url w).1 = (None, Some e))
      by (rewrite DoGetResponse_received, Hd by assumption; reflexivity).
    split; [|split].
    + rewrite DoGetBytesRaw_received, Hd by assumption. reflexivity.
    + exact Hr.
    + now apply DoGetBytes_error.
  - intros He Hu Hd. apply received_transport_error in Hd.
    rewrite (DoPost_received _ _ _ _ _ ct body) by assumption.
    rewrite Hd. reflexivity.
Qed.

(** X7. When reading the response body fails, the bytes read so far are
    dropped: the caller gets the read error and a nil result, even if
    what was read is a complete envelope. *)
Theorem read_error_discards_body
    url action queryMap postBytes isForm isFile ct body w resp resp' partial e :
  (url_Parse url = None ->
   (Do (client w) (get_request (authConfig w) url)).2 = inl resp ->
   http.ReadAll resp = (partial, Some e) ->
   (DoGetBytesRaw url w).1 = (nil_bytes, Some e)
   /\ (DoGetResponse url w).1 = (None, Some e)
   /\ (DoGetBytes url w).1 = (nil_bytes, Some e))
  /\ (post_encoding postBytes isForm isFile = inl (ct, body) ->
      url_Parse (GetUrl (authConfig w) action queryMap) = None ->
      (Do (client w)
          (post_request (authConfig w) (GetUrl (authConfig w) action queryMap)
             ct body)).2 = inl resp' ->
      http.ReadAll resp' = (partial, Some e) ->
      (DoPost action queryMap postBytes isForm isFile w).1 = (None, Some e)).
Proof.
  split.
  - intros Hu Hd Hread.
    pose proof (received_read_error _ _ _ _ _ Hd Hread) as Hrec.
    assert (Hr : (DoGetResponse url w).1 = (None, Some e))
      by (rewrite DoGetResponse_received, Hrec by assumption; reflexivity).
    split; [|split].
    + rewrite DoGetBytesRaw_received, Hrec by assumption. reflexivity.
    + exact Hr.
    + now apply DoGetBytes_error.
  - intros He Hu Hd Hread.
    pose proof (received_read_error _ _ _ _ _ Hd Hread) as Hrec.
    rewrite (DoPost_received _ _ _ _ _ ct body) by assumption.
    rewrite Hrec. reflexivity.
Qed.

(** X8. A body that [json.Unmarshal] rejects gives the decoder's error
    and a nil result, whatever was decoded before the error: no envelope
    comes back even if its status already read ok. *)
Theorem decode_error_reaches_caller
    url action queryMap postBytes isForm isFile ct body w b b' r r' e :
  (url_Parse url = None ->
   received w (get_request (authConfig w) url) = (b, None) ->
   Unmarshal_Response b = (r, Some e) ->
   (DoGetResponse url w).1 = (None, Some e)
   /\ (DoGetBytes url w).1 = (nil_bytes, Some e))
  /\ (post_encoding postBytes isForm isFile = inl (ct, body) ->
      url_Parse (GetUrl (authConfig w) action queryMap) = None ->
      received w (post_request (authConfig w)
                    (GetUrl (authConfig w) action queryMap) ct body) = (b', None) ->
      Unmarshal_Response b' = (r', Some e) ->
      (DoPost action queryMap postBytes isForm isFile w).1 = (None, Some e)).
Proof.
  split.
  - intros Hu Hrec Hdec.
    assert (Hr : (DoGetResponse url w).1 = (None, Some e)).
    { rewrite DoGetResponse_received, Hrec by assumption.
      unfold envelope_result. now rewrite Hdec. }
    split; [exact Hr | now apply DoGetBytes_error].
  - intros He Hu Hrec Hdec.
    rewrite (DoPost_received _ _ _ _ _ ct body), Hrec by assumption.
    unfold envelope_result. now rewrite Hdec.
Qed.

(** X9. A URL that [http.NewRequest] rejects stops the operation before
    anything is sent: the error comes back with a nil result and the
    world is as it was (the client was not called). *)
Theorem rejected_url_sends_nothing
    url action queryMap contentType postBytes isForm isFile ct body rbody w e :
  (url_Parse url = Some e ->
   DoGetBytesRaw url w = ((nil_bytes, Some e), w)
   /\ DoGetResponse url w = ((None, Some e), w)
   /\ DoGetBytes url w = ((nil_bytes, Some e), w)
   /\ DoPostBytesRaw url contentType rbody w = ((nil_bytes, Some e), w))
  /\ (post_encoding postBytes isForm isFile = inl (ct, body) ->
      url_Parse (GetUrl (authConfig w) action queryMap) = Some e ->
      DoPost action queryMap postBytes isForm isFile w = ((None, Some e), w)).
Proof.
  split.
  - intros Hu.
    assert (Hr : DoGetResponse url w = ((None, Some e), w))
      by (rewrite DoGetResponse_run, Hu; reflexivity).
    repeat split.
    + rewrite DoGetBytesRaw_run, Hu. reflexivity.
    + exact Hr.
    + rewrite DoGetBytes_run, Hr. reflexivity.
    + rewrite DoPostBytesRaw_run, Hu. reflexivity.
  - intros He Hu. rewrite DoPost_run, He.
    rewrite DoPost_send_run by (eapply post_encoding_contentType; exact He).
    rewrite Hu. reflexivity.
Qed.

(** X10. What comes back with an error carries no bytes: the functions
    that return a byte slice return nil whenever they return an error. *)
Theorem errors_carry_no_bytes url contentType body w :
  ((DoGetBytesRaw url w).1.2 <> None -> (DoGetBytesRaw url w).1.1 = nil_bytes)
  /\ ((DoGetBytes url w).1.2 <> None -> (DoGetBytes url w).1.1 = nil_bytes)
  /\ ((DoPostBytesRaw url contentType body w).1.2 <> None ->
      (DoPostBytesRaw url contentType body w).1.1 = nil_bytes).
Proof.
  assert (Hrr : forall r : http.Response + error,
             (read_result r).2 <> None -> (read_result r).1 = nil_bytes).
  { intros [resp|err]; simpl; [|reflexivity].
    destruct (http.ReadAll resp) as [b [e|]]; simpl; [reflexivity|congruence]. }
  split; [|split].
  - rewrite DoGetBytesRaw_run. destruct (url_Parse url); simpl; [reflexivity|].
    apply Hrr.
  - rewrite DoGetBytes_run. simpl.
    destruct (DoGetResponse url w).1 as [[r|] [e|]]; simpl; try reflexivity;
      try congruence.
    destruct (Marshal_value (Data r)) as [b [e|]]; simpl;
      [reflexivity|congruence].
  - rewrite DoPostBytesRaw_run. destruct (url_Parse url); simpl; [reflexivity|].
    apply Hrr.
Qed.

(** X11. [DoGetResponse] and [DoPost] return an envelope whenever they
    return a nil error, so the envelope that [DoGetBytes] and the
    mutators read right after the error check is never nil. *)
Theorem nil_error_gives_envelope url action queryMap postBytes isForm isFile w :
  ((DoGetResponse url w).1.2 = None ->
   exists r, (DoGetResponse url w).1.1 = Some r)
  /\ ((DoPost action queryMap postBytes isForm isFile w).1.2 = None ->
      exists r, (DoPost action queryMap postBytes isForm isFile w).1.1 = Some r).
Proof.
  split; intros H.
  - pose proof (DoGetResponse_exactly_one url w) as E.
    destruct (DoGetResponse url w).1 as [[r|] [e|]]; simpl in *;
      try contradiction; try discriminate.
    now exists r.
  - pose proof (DoPost_exactly_one action queryMap postBytes isForm isFile w) as E.
    destruct (DoPost action queryMap postBytes isForm isFile w).1
      as [[r|] [e|]]; simpl in *; try contradiction; try discriminate.
    now exists r.
Qed.

(** ** Success, end to end *)

Lemma envelope_result_answered w req (r : Response) :
  answered w req r ->
  envelope_result (received w req)
    = if String.eqb (Status r) "ok" then (Some r, None)
      else (None, Some (fmt.Errorf (Msg r))).
Proof.
  intros (b & Hrec & Hdec). rewrite Hrec. unfold envelope_result.
  rewrite Hdec. reflexivity.
Qed.

(** X12. When the client's answer decodes to an envelope with status ok,
    [DoGetResponse] and [DoPost] return exactly that envelope, all four
    fields as decoded, with a nil error. *)
Theorem ok_envelope_is_returned
    url action queryMap postBytes isForm isFile ct body w (r : Response) :
  Status r = "ok" ->
  (url_Parse url = None ->
   answered w (get_request (authConfig w) url) r ->
   (DoGetResponse url w).1 = (Some r, None))
  /\ (post_encoding postBytes isForm isFile = inl (ct, body) ->
      url_Parse (GetUrl (authConfig w) action queryMap) = None ->
      answered w (post_request (authConfig w)
                    (GetUrl (authConfig w) action queryMap) ct body) r ->
      (DoPost action queryMap postBytes isForm isFile w).1 = (Some r, None)).
Proof.
  intros Hs. split.
  - intros Hu Ha. rewrite DoGetResponse_received by assumption.
    rewrite (envelope_result_answered _ _ _ Ha), Hs. reflexivity.
  - intros He Hu Ha. rewrite (DoPost_received _ _ _ _ _ ct body) by assumption.
    rewrite (envelope_result_answered _ _ _ Ha), Hs. reflexivity.
Qed.

(** ** The mutators, end to end *)

Lemma mutate_post_answered action queryMap pb w (r : Response) :
  let url := GetUrl (authConfig w) action queryMap in
  url_Parse url = None ->
  answered w (post_request (authConfig w) url "text/plain;charset=UTF-8"
                (http.BytesReader pb)) r ->
  (mutate_post action queryMap (pb, None) w).1
    = if String.eqb (Status r) "ok"
      then (Some r, interface_eq_string (Data r) "Affected", None)
      else (None, false, Some (fmt.Errorf (Msg r))).
Proof.
  intros url Hu Ha. unfold mutate_post. simpl.
  rewrite (DoPost_received action queryMap pb false false
             "text/plain;charset=UTF-8" (http.BytesReader pb) w eq_refl Hu).
  fold url. rewrite (envelope_result_answered _ _ _ Ha).
  destruct (String.eqb (Status r) "ok"); reflexivity.
Qed.

(** X13. A mutator whose POST is answered by an envelope with status ok
    returns that envelope, the flag saying whether its data is the string
    Affected, and a nil error; the caller's entity has the organization
    as its Owner. *)
Theorem mutator_success
    action id (user : User UserMore) (permission : Permission PermissionMore)
    (role : Role RoleMore) columns w pb (r : Response) :
  let cfg := authConfig w in
  let org := OrganizationName cfg in
  let answered_at q :=
    url_Parse (GetUrl cfg action q) = None
    /\ answered w (post_request cfg (GetUrl cfg action q)
                     "text/plain;charset=UTF-8" (http.BytesReader pb)) r in
  Status r = "ok" ->
  (Marshal_User (stamp_User org user) = (pb, None) ->
   answered_at (mutate_query id columns) ->
   (modifyUserById action id user columns w).1
     = (stamp_User org user,
        (Some r, interface_eq_string (Data r) "Affected", None)))
  /\ (Marshal_Permission (stamp_Permission org permission) = (pb, None) ->
      answered_at (mutate_query (Permission_Owner permission +:+ "/"
                                 +:+ Permission_Name permission) columns) ->
      (modifyPermission action permission columns w).1
        = (stamp_Permission org permission,
           (Some r, interface_eq_string (Data r) "Affected", None)))
  /\ (Marshal_Role (stamp_Role org role) = (pb, None) ->
      answered_at (mutate_query (Role_Owner role +:+ "/" +:+ Role_Name role)
                     columns) ->
      (modifyRole action role columns w).1
        = (stamp_Role org role,
           (Some r, interface_eq_string (Data r) "Affected", None))).
Proof.
  intros cfg org answered_at Hs. subst cfg org answered_at.
  split; [|split]; intros Hm [Hu Ha].
  - rewrite modifyUserById_run. cbv zeta. rewrite Hm.
    rewrite (mutate_post_answered _ _ _ _ r Hu Ha), Hs. reflexivity.
  - rewrite modifyPermission_run. cbv zeta. rewrite Hm.
    rewrite (mutate_post_answered _ _ _ _ r Hu Ha), Hs. reflexivity.
  - rewrite modifyRole_run. cbv zeta. rewrite Hm.
    rewrite (mutate_post_answered _ _ _ _ r Hu Ha), Hs. reflexivity.
Qed.


(** X15. When [json.Marshal] fails on the entity, the mutator returns
    Marshal's error with a nil envelope and affected = false and sends
    nothing: the world is as it was.  The entity's Owner has been
    overwritten all the same. *)
Theorem mutator_marshal_failure
    action id (user : User UserMore) (permission : Permission PermissionMore)
    (role : Role RoleMore) columns w pb e :
  let org := OrganizationName (authConfig w) in
  (Marshal_User (stamp_User org user) = (pb, Some e) ->
   modifyUserById action id user columns w
     = ((stamp_User org user, (None, false, Some e)), w))
  /\ (Marshal_Permission (stamp_Permission org permission) = (pb, Some e) ->
      modifyPermission action permission columns w
        = ((stamp_Permission org permission, (None, false, Some e)), w))
  /\ (Marshal_Role (stamp_Role org role) = (pb, Some e) ->
      modifyRole action role columns w
        = ((stamp_Role org role, (None, false, Some e)), w)).
Proof.
  intros org. subst org. split; [|split]; intros Hm.
  - rewrite modifyUserById_run. cbv zeta. rewrite Hm. reflexivity.
  - rewrite modifyPermission_run. cbv zeta. rewrite Hm. reflexivity.
  - rewrite modifyRole_run. cbv zeta. rewrite Hm. reflexivity.
Qed.

(** X16. [modifyUser] addresses the user by [GetId] of the user as it
    was on entry, while the body it sends is the user with the Owner
    already overwritten: the id is taken before the Owner is touched. *)
Theorem modifyUser_id_on_entry action (user : User UserMore) columns w req :
  req ∈ sent_by (modifyUser action user columns) w ->
  let stamped := stamp_User (OrganizationName (authConfig w)) user in
  http.URL req
    = GetUrl (authConfig w) action (mutate_query (GetId user) columns)
  /\ mutate_query (GetId user) columns !! "id" = Some (GetId user)
  /\ http.Body req = Some (http.BytesReader (Marshal_User stamped).1).
Proof.
  rewrite modifyUser_unfold, sent_by_modifyUserById. intros H stamped.
  apply mutate_sent_inv in H as [_ ->].
  split; [reflexivity|]. split; [apply mutate_query_id | reflexivity].
Qed.

(** X17. The query of a mutator's request has the key id, the key columns
    exactly when columns were given, and no other key. *)
Theorem mutator_query_keys
    action id (user : User UserMore) (permission : Permission PermissionMore)
    (role : Role RoleMore) columns w req :
  req ∈ sent_by (modifyUser action user columns) w
  \/ req ∈ sent_by (modifyUserById action id user columns) w
  \/ req ∈ sent_by (modifyPermission action permission columns) w
  \/ req ∈ sent_by (modifyRole action role columns) w ->
  exists q : gmap string string,
    http.URL req = GetUrl (authConfig w) action q
    /\ dom q = match columns with
               | [] => {[ "id" ]}
               | _ => {[ "columns"; "id" ]}
               end.
Proof.
  rewrite modifyUser_unfold, !sent_by_modifyUserById, sent_by_modifyPermission,
    sent_by_modifyRole.
  intros [H|[H|[H|H]]]; apply mutate_sent_inv in H as [_ ->];
    eexists; (split; [reflexivity | apply mutate_query_dom]).
Qed.

(** X18. [modifyUserById] never reads the Owner the user comes with: two
    users that differ in their Owner only give the same requests, the
    same results and the same entity afterwards. *)
Theorem modifyUserById_ignores_owner action id (user user' : User UserMore)
    columns w :
  User_Name user = User_Name user' ->
  User_More user = User_More user' ->
  modifyUserById action id user columns w
    = modifyUserById action id user' columns w.
Proof.
  intros Hn Hm. rewrite !modifyUserById_run. unfold stamp_User.
  rewrite Hn, Hm. reflexivity.
Qed.

(** X19. After [SetHttpClient(c)] the operations talk to [c] and to no
    other client: the configuration and the requests sent so far are
    untouched, and the next GET returns what [c] answers to it. *)
Theorem SetHttpClient_injects (c : C) url w :
  let w' := (SetHttpClient c w).2 in
  client w' = c /\ authConfig w' = authConfig w /\ sent w' = sent w
  /\ (url_Parse url = None ->
      (DoGetBytesRaw url w').1
        = read_result (Do c (get_request (authConfig w) url)).2
      /\ (DoGetResponse url w').1
         = envelope_result
             (read_result (Do c (get_request (authConfig w) url)).2)).
Proof.
  intros w'. repeat split.
  - rewrite DoGetBytesRaw_run, H. simpl. unfold client_Do. simpl.
    destruct (Do c _). reflexivity.
  - rewrite DoGetResponse_run, H. simpl. unfold client_Do. simpl.
    destruct (Do c _). reflexivity.
Qed.

(** X20. For an envelope with a status other than ok whose msg has no
    percent sign, the error that the GET operations and [DoPost] return
    says the msg, byte for byte (and the result is nil). *)
Theorem remote_error_says_msg
    url action queryMap postBytes isForm isFile ct body w (r : Response) :
  Status r <> "ok" ->
  no_percent (Msg r) = true ->
  exists err, Error err = Msg r
  /\ (url_Parse url = None ->
      answered w (get_request (authConfig w) url) r ->
      (DoGetResponse url w).1 = (None, Some err)
      /\ (DoGetBytes url w).1 = (nil_bytes, Some err))
  /\ (post_encoding postBytes isForm isFile = inl (ct, body) ->
      url_Parse (GetUrl (authConfig w) action queryMap) = None ->
      answered w (post_request (authConfig w)
                    (GetUrl (authConfig w) action queryMap) ct body) r ->
      (DoPost action queryMap postBytes isForm isFile w).1 = (None, Some err)).
Proof.
  intros Hs Hp. exists (fmt.Errorf (Msg r)).
  split; [now apply Errorf_no_percent|].
  assert (Hne : String.eqb (Status r) "ok" = false)
    by (destruct (String.eqb_spec (Status r) "ok"); [contradiction|reflexivity]).
  split.
  - intros Hu Ha.
    assert (Hr : (DoGetResponse url w).1 = (None, Some (fmt.Errorf (Msg r)))).
    { rewrite DoGetResponse_received by assumption.
      rewrite (envelope_result_answered _ _ _ Ha), Hne. reflexivity. }
    split; [exact Hr | now apply DoGetBytes_error].
  - intros He Hu Ha. rewrite (DoPost_received _ _ _ _ _ ct body) by assumption.
    rewrite (envelope_result_answered _ _ _ Ha), Hne. reflexivity.
Qed.

End further.

(** ** The further properties at the scenarios *)

Section further_scenarios.
#[local] Existing Instance ExampleJson.
#[local] Existing Instance ExamplePackage.

Ltac run := vm_compute; first [reflexivity | discriminate | left].

(** X1 at a GET of the example URL. *)
Lemma get_request_shape_witness :
  get_request example_config example_url ∈ sent_by (DoGetBytes example_url) world_ok
  /\ http.Method (get_request example_config example_url) = "GET"
  /\ http.URL (get_request example_config example_url) = example_url
  /\ http.BasicAuth (get_request example_config example_url)
     = Some (ClientId (authConfig world_ok), ClientSecret (authConfig world_ok))
  /\ http.Header (get_request example_config example_url) = ∅
  /\ http.Body (get_request example_config example_url) = None.
Proof.
  assert (H : get_request example_config example_url
                ∈ sent_by (DoGetBytes example_url) world_ok) by run.
  split; [exact H|].
  exact (get_request_shape example_url world_ok _ (or_intror (or_intror H))).
Defined.

(** X2 with the empty content type. *)
Lemma post_request_shape_witness :
  default_post
    ∈ sent_by (DoPostBytesRaw example_url EmptyString (http.BytesReader "{}")) world_ok
  /\ http.Method default_post = "POST"
  /\ http.URL default_post = example_url
  /\ http.BasicAuth default_post
     = Some (ClientId (authConfig world_ok), ClientSecret (authConfig world_ok))
  /\ http.Header default_post
     = {[ "Content-Type" := if String.eqb EmptyString EmptyString
                            then "text/plain;charset=UTF-8" else EmptyString ]}
  /\ http.Body default_post = Some (http.BytesReader "{}").
Proof.
  assert (H : default_post
                ∈ sent_by (DoPostBytesRaw example_url EmptyString
                             (http.BytesReader "{}")) world_ok) by run.
  split; [exact H|].
  exact (post_request_shape example_url EmptyString (http.BytesReader "{}")
           world_ok default_post H).
Defined.

(** X4 at the role scenario, sent through [DoPost] itself. *)
Lemma DoPost_addressing_witness :
  role_request
    ∈ sent_by (DoPost "add-role" {[ "id" := "org1/editor" ]}
                 (dq "{'owner':'built-in','name':'editor'}") false false) world_ok
  /\ http.Method role_request = "POST"
  /\ http.URL role_request
     = GetUrl (authConfig world_ok) "add-role" {[ "id" := "org1/editor" ]}
  /\ http.BasicAuth role_request
     = Some (ClientId (authConfig world_ok), ClientSecret (authConfig world_ok)).
Proof.
  assert (H : role_request
                ∈ sent_by (DoPost "add-role" {[ "id" := "org1/editor" ]}
                             (dq "{'owner':'built-in','name':'editor'}")
                             false false) world_ok) by run.
  split; [exact H|].
  exact (DoPost_addressing "add-role" {[ "id" := "org1/editor" ]}
           (dq "{'owner':'built-in','name':'editor'}") false false world_ok
           role_request H).
Defined.

(** X5 at the role scenario. *)
Lemma mutator_request_envelope_witness :
  role_request ∈ sent_by (modifyRole "add-role" example_role []) world_ok
  /\ http.Method role_request = "POST"
  /\ http.BasicAuth role_request
     = Some (ClientId (authConfig world_ok), ClientSecret (authConfig world_ok))
  /\ http.Header role_request = {[ "Content-Type" := "text/plain;charset=UTF-8" ]}
  /\ exists b, http.Body role_request = Some (http.BytesReader b).
Proof.
  assert (H : role_request ∈ sent_by (modifyRole "add-role" example_role []) world_ok)
    by run.
  split; [exact H|].
  exact (mutator_request_envelope "add-role" "7c4d" example_user example_permission
           example_role [] world_ok role_request
           (or_intror (or_intror (or_intror H)))).
Defined.

(** X6 with a client that refuses the connection. *)
Lemma transport_error_witness :
  (url_Parse example_url = None
   /\ (Do (client world_refused)
          (get_request (authConfig world_refused) example_url)).2
      = inr connection_refused
   /\ (DoGetBytesRaw example_url world_refused).1
      = (nil_bytes, Some connection_refused)
   /\ (DoGetResponse example_url world_refused).1 = (None, Some connection_refused)
   /\ (DoGetBytes example_url world_refused).1
      = (nil_bytes, Some connection_refused))
  /\ (post_encoding "{}" false false
      = inl ("text/plain;charset=UTF-8", http.BytesReader "{}")
      /\ url_Parse (GetUrl (authConfig world_refused) "add-user" ∅) = None
      /\ (Do (client world_refused)
             (post_request (authConfig world_refused)
                (GetUrl (authConfig world_refused) "add-user" ∅)
                "text/plain;charset=UTF-8" (http.BytesReader "{}"))).2
         = inr connection_refused
      /\ (DoPost "add-user" ∅ "{}" false false world_refused).1
         = (None, Some connection_refused)).
Proof.
  assert (H1 : url_Parse example_url = None) by run.
  assert (H2 : (Do (client world_refused)
                  (get_request (authConfig world_refused) example_url)).2
               = inr connection_refused) by run.
  assert (H3 : post_encoding "{}" false false
               = inl ("text/plain;charset=UTF-8", http.BytesReader "{}")) by run.
  assert (H4 : url_Parse (GetUrl (authConfig world_refused) "add-user" ∅) = None)
    by run.
  assert (H5 : (Do (client world_refused)
                  (post_request (authConfig world_refused)
                     (GetUrl (authConfig world_refused) "add-user" ∅)
                     "text/plain;charset=UTF-8" (http.BytesReader "{}"))).2
               = inr connection_refused) by run.
  pose proof (transport_error_reaches_caller example_url "add-user" ∅ "{}"
                false false "text/plain;charset=UTF-8" (http.BytesReader "{}")
                world_refused connection_refused) as [Hg Hp].
  split.
  - split; [exact H1|]. split; [exact H2|]. exact (Hg H1 H2).
  - split; [exact H3|]. split; [exact H4|]. split; [exact H5|].
    exact (Hp H3 H4 H5).
Defined.

(** X7 with a body that breaks off after a complete ok envelope. *)
Lemma read_error_witness :
  (url_Parse example_url = None
   /\ (Do (client world_truncated)
          (get_request (authConfig world_truncated) example_url)).2
      = inl {| http.ReadAll := (ok_affected, Some unexpected_EOF) |}
   /\ http.ReadAll {| http.ReadAll := (ok_affected, Some unexpected_EOF) |}
      = (ok_affected, Some unexpected_EOF)
   /\ (DoGetBytesRaw example_url world_truncated).1
      = (nil_bytes, Some unexpected_EOF)
   /\ (DoGetResponse example_url world_truncated).1 = (None, Some unexpected_EOF)
   /\ (DoGetBytes example_url world_truncated).1
      = (nil_bytes, Some unexpected_EOF))
  /\ (post_encoding "{}" false false
      = inl ("text/plain;charset=UTF-8", http.BytesReader "{}")
      /\ url_Parse (GetUrl (authConfig world_truncated) "add-user" ∅) = None
      /\ (Do (client world_truncated)
             (post_request (authConfig world_truncated)
                (GetUrl (authConfig world_truncated) "add-user" ∅)
                "text/plain;charset=UTF-8" (http.BytesReader "{}"))).2
         = inl {| http.ReadAll := (ok_affected, Some unexpected_EOF) |}
      /\ (DoPost "add-user" ∅ "{}" false false world_truncated).1
         = (None, Some unexpected_EOF)).
Proof.
  set (resp := {| http.ReadAll := (ok_affected, Some unexpected_EOF) |}).
  assert (H1 : url_Parse example_url = None) by run.
  assert (H2 : (Do (client world_truncated)
                  (get_request (authConfig world_truncated) example_url)).2
               = inl resp) by run.
  assert (H3 : post_encoding "{}" false false
               = inl ("text/plain;charset=UTF-8", http.BytesReader "{}")) by run.
  assert (H4 : url_Parse (GetUrl (authConfig world_truncated) "add-user" ∅) = None)
    by run.
  assert (H5 : (Do (client world_truncated)
                  (post_request (authConfig world_truncated)
                     (GetUrl (authConfig world_truncated) "add-user" ∅)
                     "text/plain;charset=UTF-8" (http.BytesReader "{}"))).2
               = inl resp) by run.
  pose proof (read_error_discards_body example_url "add-user" ∅ "{}"
                false false "text/plain;charset=UTF-8" (http.BytesReader "{}")
                world_truncated resp resp ok_affected unexpected_EOF) as [Hg Hp].
  split.
  - split; [exact H1|]. split; [exact H2|]. split; [reflexivity|].
    exact (Hg H1 H2 eq_refl).
  - split; [exact H3|]. split; [exact H4|]. split; [exact H5|].
    exact (Hp H3 H4 H5 eq_refl).
Defined.

(** X8 with an envelope whose msg is a number (its status has already
    read ok), and with a body that is not JSON. *)
Lemma decode_error_witness :
  (url_Parse example_url = None
   /\ received world_mistyped (get_request (authConfig world_mistyped) example_url)
      = (mistyped, None)
   /\ Unmarshal_Response mistyped
      = (mistyped_envelope, Some (UnmarshalTypeError "number"))
   /\ (DoGetResponse example_url world_mistyped).1
      = (None, Some (UnmarshalTypeError "number"))
   /\ (DoGetBytes example_url world_mistyped).1
      = (nil_bytes, Some (UnmarshalTypeError "number")))
  /\ (post_encoding "{}" false false
      = inl ("text/plain;charset=UTF-8", http.BytesReader "{}")
      /\ url_Parse (GetUrl (authConfig world_html) "add-user" ∅) = None
      /\ received world_html
           (post_request (authConfig world_html)
              (GetUrl (authConfig world_html) "add-user" ∅)
              "text/plain;charset=UTF-8" (http.BytesReader "{}"))
         = (bad_gateway, None)
      /\ Unmarshal_Response bad_gateway
         = (zero_Response, Some (SyntaxError "invalid JSON input"))
      /\ (DoPost "add-user" ∅ "{}" false false world_html).1
         = (None, Some (SyntaxError "invalid JSON input"))).
Proof.
  assert (H1 : url_Parse example_url = None) by run.
  assert (H2 : received world_mistyped
                 (get_request (authConfig world_mistyped) example_url)
               = (mistyped, None)) by run.
  assert (H3 : Unmarshal_Response mistyped
               = (mistyped_envelope, Some (UnmarshalTypeError "number"))) by run.
  assert (H4 : post_encoding "{}" false false
               = inl ("text/plain;charset=UTF-8", http.BytesReader "{}")) by run.
  assert (H5 : url_Parse (GetUrl (authConfig world_html) "add-user" ∅) = None)
    by run.
  assert (H6 : received world_html
                 (post_request (authConfig world_html)
                    (GetUrl (authConfig world_html) "add-user" ∅)
                    "text/plain;charset=UTF-8" (http.BytesReader "{}"))
               = (bad_gateway, None)) by run.
  assert (H7 : Unmarshal_Response bad_gateway
               = (zero_Response, Some (SyntaxError "invalid JSON input"))) by run.
  split.
  - split; [exact H1|]. split; [exact H2|]. split; [exact H3|].
    exact (proj1 (decode_error_reaches_caller example_url "add-user" ∅ "{}"
                    false false "text/plain;charset=UTF-8" (http.BytesReader "{}")
                    world_mistyped mistyped bad_gateway mistyped_envelope
                    zero_Response (UnmarshalTypeError "number")) H1 H2 H3).
  - split; [exact H4|]. split; [exact H5|]. split; [exact H6|]. split; [exact H7|].
    exact (proj2 (decode_error_reaches_caller example_url "add-user" ∅ "{}"
                    false false "text/plain;charset=UTF-8" (http.BytesReader "{}")
                    world_html mistyped bad_gateway mistyped_envelope
                    zero_Response (SyntaxError "invalid JSON input")) H4 H5 H6 H7).
Defined.

(** X9 with a line feed in the URL, and in the action of a POST. *)
Lemma rejected_url_witness :
  (url_Parse bad_url = Some control_error
   /\ DoGetBytesRaw bad_url world_ok = ((nil_bytes, Some control_error), world_ok)
   /\ DoGetResponse bad_url world_ok = ((None, Some control_error), world_ok)
   /\ DoGetBytes bad_url world_ok = ((nil_bytes, Some control_error), world_ok)
   /\ DoPostBytesRaw bad_url "text/plain" (http.BytesReader "{}") world_ok
      = ((nil_bytes, Some control_error), world_ok))
  /\ (post_encoding "{}" false false
      = inl ("text/plain;charset=UTF-8", http.BytesReader "{}")
      /\ url_Parse (GetUrl (authConfig world_ok) bad_action ∅) = Some control_error
      /\ DoPost bad_action ∅ "{}" false false world_ok
         = ((None, Some control_error), world_ok)).
Proof.
  assert (H1 : url_Parse bad_url = Some control_error) by run.
  assert (H2 : post_encoding "{}" false false
               = inl ("text/plain;charset=UTF-8", http.BytesReader "{}")) by run.
  assert (H3 : url_Parse (GetUrl (authConfig world_ok) bad_action ∅)
               = Some control_error) by run.
  pose proof (rejected_url_sends_nothing bad_url bad_action ∅ "text/plain" "{}"
                false false "text/plain;charset=UTF-8" (http.BytesReader "{}")
                (http.BytesReader "{}") world_ok control_error) as [Hg Hp].
  split.
  - split; [exact H1|]. exact (Hg H1).
  - split; [exact H2|]. split; [exact H3|]. exact (Hp H2 H3).
Defined.

(** X10 with a refused connection. *)
Lemma errors_carry_no_bytes_witness :
  ((DoGetBytesRaw example_url world_refused).1.2 <> None
   /\ (DoGetBytesRaw example_url world_refused).1.1 = nil_bytes)
  /\ ((DoGetBytes example_url world_error).1.2 <> None
      /\ (DoGetBytes example_url world_error).1.1 = nil_bytes)
  /\ ((DoPostBytesRaw example_url "text/plain" (http.BytesReader "{}")
         world_truncated).1.2 <> None
      /\ (DoPostBytesRaw example_url "text/plain" (http.BytesReader "{}")
            world_truncated).1.1 = nil_bytes).
Proof.
  assert (H1 : (DoGetBytesRaw example_url world_refused).1.2 <> None) by run.
  assert (H2 : (DoGetBytes example_url world_error).1.2 <> None) by run.
  assert (H3 : (DoPostBytesRaw example_url "text/plain" (http.BytesReader "{}")
                  world_truncated).1.2 <> None) by run.
  split; [|split]; (split; [assumption|]).
  - exact (proj1 (errors_carry_no_bytes example_url "text/plain"
                    (http.BytesReader "{}") world_refused) H1).
  - exact (proj1 (proj2 (errors_carry_no_bytes example_url "text/plain"
                    (http.BytesReader "{}") world_error)) H2).
  - exact (proj2 (proj2 (errors_carry_no_bytes example_url "text/plain"
                    (http.BytesReader "{}") world_truncated)) H3).
Defined.

(** X11 at the scenario envelope. *)
Lemma nil_error_gives_envelope_witness :
  ((DoGetResponse example_url world_ok).1.2 = None
   /\ exists r, (DoGetResponse example_url world_ok).1.1 = Some r)
  /\ ((DoPost "add-user" ∅ "{}" false false world_ok).1.2 = None
      /\ exists r, (DoPost "add-user" ∅ "{}" false false world_ok).1.1 = Some r).
Proof.
  assert (H1 : (DoGetResponse example_url world_ok).1.2 = None) by run.
  assert (H2 : (DoPost "add-user" ∅ "{}" false false world_ok).1.2 = None) by run.
  split; (split; [assumption|]).
  - exact (proj1 (nil_error_gives_envelope example_url "add-user" ∅ "{}"
                    false false world_ok) H1).
  - exact (proj2 (nil_error_gives_envelope example_url "add-user" ∅ "{}"
                    false false world_ok) H2).
Defined.

Lemma answered_ok_get :
  answered world_ok (get_request (authConfig world_ok) example_url) ok_envelope.
Proof. exists ok_affected. split; run. Defined.

Lemma answered_ok_post action queryMap body :
  answered world_ok
    (post_request example_config (example_GetUrl example_config action queryMap)
       "text/plain;charset=UTF-8" (http.BytesReader body)) ok_envelope.
Proof. exists ok_affected. split; [reflexivity | run]. Defined.

Lemma answered_error_post action queryMap body :
  answered world_error
    (post_request example_config (example_GetUrl example_config action queryMap)
       "text/plain;charset=UTF-8" (http.BytesReader body)) user_not_found_envelope.
Proof. exists user_not_found. split; [reflexivity | run]. Defined.

(** X12 at the scenario envelope. *)
Lemma ok_envelope_is_returned_witness :
  Status ok_envelope = "ok"
  /\ (url_Parse example_url = None
      /\ answered world_ok (get_request (authConfig world_ok) example_url) ok_envelope
      /\ (DoGetResponse example_url world_ok).1 = (Some ok_envelope, None))
  /\ (post_encoding "{}" false false
      = inl ("text/plain;charset=UTF-8", http.BytesReader "{}")
      /\ url_Parse (GetUrl (authConfig world_ok) "add-user" ∅) = None
      /\ answered world_ok
           (post_request (authConfig world_ok)
              (GetUrl (authConfig world_ok) "add-user" ∅)
              "text/plain;charset=UTF-8" (http.BytesReader "{}")) ok_envelope
      /\ (DoPost "add-user" ∅ "{}" false false world_ok).1
         = (Some ok_envelope, None)).
Proof.
  assert (H0 : Status ok_envelope = "ok") by reflexivity.
  assert (H1 : url_Parse example_url = None) by run.
  pose proof answered_ok_get as H2.
  assert (H3 : post_encoding "{}" false false
               = inl ("text/plain;charset=UTF-8", http.BytesReader "{}")) by run.
  assert (H4 : url_Parse (GetUrl (authConfig world_ok) "add-user" ∅) = None) by run.
  pose proof (answered_ok_post "add-user" ∅ "{}") as H5.
  pose proof (ok_envelope_is_returned example_url "add-user" ∅ "{}" false false
                "text/plain;charset=UTF-8" (http.BytesReader "{}") world_ok
                ok_envelope H0) as [Hg Hp].
  split; [exact H0|]. split.
  - split; [exact H1|]. split; [exact H2|]. exact (Hg H1 H2).
  - split; [exact H3|]. split; [exact H4|]. split; [exact H5|].
    exact (Hp H3 H4 H5).
Defined.

(** X13 at the three scenario entities, answered with data Affected. *)
Lemma mutator_success_witness :
  Status ok_envelope = "ok"
  /\ (Marshal_User (stamp_User "built-in" example_user) = (alice_json, None)
      /\ url_Parse (GetUrl example_config "update-user" (mutate_query "7c4d" []))
         = None
      /\ answered world_ok
           (post_request example_config
              (GetUrl example_config "update-user" (mutate_query "7c4d" []))
              text_plain (http.BytesReader alice_json)) ok_envelope
      /\ (modifyUserById "update-user" "7c4d" example_user [] world_ok).1
         = (stamp_User "built-in" example_user, (Some ok_envelope, true, None)))
  /\ (Marshal_Permission (stamp_Permission "built-in" example_permission)
      = (read_all_json, None)
      /\ url_Parse (GetUrl example_config "update-permission"
                      (mutate_query "org1/read-all" [])) = None
      /\ answered world_ok
           (post_request example_config
              (GetUrl example_config "update-permission"
                 (mutate_query "org1/read-all" []))
              text_plain (http.BytesReader read_all_json)) ok_envelope
      /\ (modifyPermission "update-permission" example_permission [] world_ok).1
         = (stamp_Permission "built-in" example_permission,
            (Some ok_envelope, true, None)))
  /\ (Marshal_Role (stamp_Role "built-in" example_role) = (editor_json, None)
      /\ url_Parse (GetUrl example_config "add-role" (mutate_query "org1/editor" []))
         = None
      /\ answered world_ok
           (post_request example_config
              (GetUrl example_config "add-role" (mutate_query "org1/editor" []))
              text_plain (http.BytesReader editor_json)) ok_envelope
      /\ (modifyRole "add-role" example_role [] world_ok).1
         = (stamp_Role "built-in" example_role, (Some ok_envelope, true, None))).
Proof.
  assert (H0 : Status ok_envelope = "ok") by reflexivity.
  assert (Mu : Marshal_User (stamp_User "built-in" example_user)
               = (alice_json, None)) by run.
  assert (Mp : Marshal_Permission (stamp_Permission "built-in" example_permission)
               = (read_all_json, None)) by run.
  assert (Mr : Marshal_Role (stamp_Role "built-in" example_role)
               = (editor_json, None)) by run.
  assert (Uu : url_Parse (GetUrl example_config "update-user"
                            (mutate_query "7c4d" [])) = None) by run.
  assert (Up : url_Parse (GetUrl example_config "update-permission"
                            (mutate_query "org1/read-all" [])) = None) by run.
  assert (Ur : url_Parse (GetUrl example_config "add-role"
                            (mutate_query "org1/editor" [])) = None) by run.
  pose proof (answered_ok_post "update-user" (mutate_query "7c4d" []) alice_json)
    as Au.
  pose proof (answered_ok_post "update-permission"
                (mutate_query "org1/read-all" []) read_all_json) as Ap.
  pose proof (answered_ok_post "add-role" (mutate_query "org1/editor" [])
                editor_json) as Ar.
  split; [exact H0|]. split; [|split].
  - split; [exact Mu|]. split; [exact Uu|]. split; [exact Au|].
    exact (proj1 (mutator_success "update-user" "7c4d" example_user
                    example_permission example_role [] world_ok alice_json
                    ok_envelope H0) Mu (conj Uu Au)).
  - split; [exact Mp|]. split; [exact Up|]. split; [exact Ap|].
    exact (proj1 (proj2 (mutator_success "update-permission" "7c4d" example_user
                    example_permission example_role [] world_ok read_all_json
                    ok_envelope H0)) Mp (conj Up Ap)).
  - split; [exact Mr|]. split; [exact Ur|]. split; [exact Ar|].
    exact (proj2 (proj2 (mutator_success "add-role" "7c4d" example_user
                    example_permission example_role [] world_ok editor_json
                    ok_envelope H0)) Mr (conj Ur Ar)).
Defined.


(** X17 with two columns. *)
Lemma mutator_query_keys_witness :
  permission_request
    ∈ sent_by (modifyPermission "update-permission" example_permission
                 ["name"; "email"]) world_ok
  /\ exists q : gmap string string,
       http.URL permission_request = GetUrl example_config "update-permission" q
       /\ dom q = {[ "columns"; "id" ]}.
Proof.
  assert (H : permission_request
                ∈ sent_by (modifyPermission "update-permission" example_permission
                             ["name"; "email"]) world_ok) by run.
  split; [exact H|].
  exact (mutator_query_keys "update-permission" "7c4d" example_user
           example_permission example_role ["name"; "email"] world_ok
           permission_request (or_intror (or_intror (or_introl H)))).
Defined.

(** X18 at two users that differ in their Owner. *)
Lemma modifyUserById_ignores_owner_witness :
  User_Name example_user = User_Name elsewhere_user
  /\ User_More example_user = User_More elsewhere_user
  /\ modifyUserById "update-user" "7c4d" example_user ["name"] world_ok
     = modifyUserById "update-user" "7c4d" elsewhere_user ["name"] world_ok.
Proof.
  split; [reflexivity|]. split; [reflexivity|].
  exact (modifyUserById_ignores_owner "update-user" "7c4d" example_user
           elsewhere_user ["name"] world_ok eq_refl eq_refl).
Defined.

(** X19: a client that answers replaces one that refuses. *)
Lemma SetHttpClient_injects_witness :
  url_Parse example_url = None
  /\ (DoGetBytesRaw example_url (SetHttpClient fresh_client world_refused).2).1
     = read_result (Do fresh_client
                      (get_request (authConfig world_refused) example_url)).2
  /\ (DoGetResponse example_url (SetHttpClient fresh_client world_refused).2).1
     = envelope_result
         (read_result (Do fresh_client
                         (get_request (authConfig world_refused) example_url)).2).
Proof.
  assert (H : url_Parse example_url = None) by run.
  split; [exact H|].
  exact (proj2 (proj2 (proj2 (SetHttpClient_injects fresh_client example_url
                                world_refused))) H).
Defined.

Lemma answered_error_get :
  answered world_error (get_request (authConfig world_error) example_url)
    user_not_found_envelope.
Proof. exists user_not_found. split; run. Defined.

(** X20 at the envelope with msg [user not found]. *)
Lemma remote_error_says_msg_witness :
  Status user_not_found_envelope <> "ok"
  /\ no_percent (Msg user_not_found_envelope) = true
  /\ url_Parse example_url = None
  /\ answered world_error (get_request (authConfig world_error) example_url)
       user_not_found_envelope
  /\ post_encoding "{}" false false = inl (text_plain, http.BytesReader "{}")
  /\ url_Parse (GetUrl (authConfig world_error) "add-user" ∅) = None
  /\ answered world_error
       (post_request (authConfig world_error)
          (GetUrl (authConfig world_error) "add-user" ∅) text_plain
          (http.BytesReader "{}")) user_not_found_envelope
  /\ exists err, Error err = "user not found"
     /\ (DoGetResponse example_url world_error).1 = (None, Some err)
     /\ (DoGetBytes example_url world_error).1 = (nil_bytes, Some err)
     /\ (DoPost "add-user" ∅ "{}" false false world_error).1 = (None, Some err).
Proof.
  assert (H0 : Status user_not_found_envelope <> "ok") by discriminate.
  assert (H1 : no_percent (Msg user_not_found_envelope) = true) by reflexivity.
  assert (H2 : url_Parse example_url = None) by run.
  pose proof answered_error_get as H3.
  assert (H4 : post_encoding "{}" false false
               = inl (text_plain, http.BytesReader "{}")) by run.
  assert (H5 : url_Parse (GetUrl (authConfig world_error) "add-user" ∅) = None)
    by run.
  pose proof (answered_error_post "add-user" ∅ "{}") as H6.
  repeat (split; [assumption|]).
  destruct (remote_error_says_msg (J := ExampleJson) (P := ExamplePackage)
              example_url "add-user" ∅ "{}" false false text_plain
              (http.BytesReader "{}") world_error user_not_found_envelope H0 H1)
    as (err & He & Hg & Hp).
  exists err. split; [exact He|].
  destruct (Hg H2 H3) as [Hg1 Hg2].
  split; [exact Hg1|]. split; [exact Hg2|]. exact (Hp H4 H5 H6).
Defined.

End further_scenarios.

Section scored_scenarios.
#[local] Existing Instance ExampleJson.
#[local] Existing Instance ScoredPackage.

Ltac run := vm_compute; first [reflexivity | discriminate | left].

(** X15 at entities whose score is NaN. *)
Lemma mutator_marshal_failure_witness :
  (Marshal_User (stamp_User "built-in" (scored_user true))
   = (EmptyString, Some NaN_error)
   /\ modifyUserById "update-user" "7c4d" (scored_user true)
        [] world_ok
      = ((stamp_User "built-in" (scored_user true),
          (None, false, Some NaN_error)), world_ok))
  /\ (Marshal_Permission
        (stamp_Permission "built-in" (scored_permission true))
      = (EmptyString, Some NaN_error)
      /\ modifyPermission "update-permission"
           (scored_permission true) [] world_ok
         = ((stamp_Permission "built-in"
               (scored_permission true),
             (None, false, Some NaN_error)), world_ok))
  /\ (Marshal_Role (stamp_Role "built-in" (scored_role true))
      = (EmptyString, Some NaN_error)
      /\ modifyRole "add-role" (scored_role true) [] world_ok
         = ((stamp_Role "built-in" (scored_role true),
             (None, false, Some NaN_error)), world_ok)).
Proof.
  pose proof (mutator_marshal_failure "update-user" "7c4d"
                (scored_user true) (scored_permission true) (scored_role true)
                [] world_ok EmptyString NaN_error) as (Hu & _ & _).
  pose proof (mutator_marshal_failure "update-permission"
                "7c4d" (scored_user true) (scored_permission true)
                (scored_role true) [] world_ok EmptyString NaN_error)
    as (_ & Hp & _).
  pose proof (mutator_marshal_failure "add-role" "7c4d"
                (scored_user true) (scored_permission true) (scored_role true)
                [] world_ok EmptyString NaN_error) as (_ & _ & Hr).
  split; [|split]; (split; [reflexivity|]).
  - exact (Hu eq_refl).
  - exact (Hp eq_refl).
  - exact (Hr eq_refl).
Defined.

(** X16 where the id is owner/name: it says [org1], the body [built-in]. *)
Lemma modifyUser_id_on_entry_witness :
  alice_request
    ∈ sent_by (modifyUser "update-user" (scored_user false) [])
        world_ok
  /\ http.URL alice_request
     = GetUrl example_config "update-user"
         (mutate_query "org1/alice" [])
  /\ mutate_query "org1/alice" [] !! "id" = Some "org1/alice"
  /\ http.Body alice_request = Some (http.BytesReader alice_json).
Proof.
  assert (H : alice_request
                ∈ sent_by (modifyUser "update-user"
                             (scored_user false) []) world_ok) by run.
  split; [exact H|].
  exact (modifyUser_id_on_entry "update-user"
           (scored_user false) [] world_ok alice_request H).
Defined.

End scored_scenarios.
